(** * SEM campaign planner: keyword scoring, clustering, quality gate, budgets

    A shallow embedding of the decision logic of the pipeline:

    - [src/agents/keyword_processor.py]  (Keyword Filter & Scorer)
    - [src/agents/clustering.py]         (Cluster Builder)
    - [src/workflow.py]                  (Quality Gate, clustering loop)
    - [src/agents/campaign.py]           (Budget & Bid Allocator, reports)
    - [src/agents/fallback_naming.py], [src/agents/vector_ops.py],
      [src/agents/openai_enrichment.py] (entry and exit of the node),
      [src/workflow_manager.py]         (the nodes around them)
    - [src/schemas/state.py], [src/schemas/campaign.py]

    Conventions.  Python [int] is [Z].  Python [float] is modelled by exact
    rational arithmetic ([Q]); rounding of binary floating point is not
    represented, so numeric statements below are statements about the
    formulas the code evaluates.  Python [str] is [string]; case folding and
    whitespace are those of the ASCII range.  A [dict] whose insertion order
    the code relies on is an association list.  A node of the graph returns a
    partial state update (a Python dict of slot names to new values), which
    the graph runtime merges into the state. *)

From Stdlib Require Import ZArith QArith Qround Qabs Lqa Lia.
From Stdlib Require Import List String Ascii Bool Permutation DecimalString.
Import ListNotations.

Local Open Scope Z_scope.

(* ================================================================== *)
(** * Python primitives used by the code *)
(* ================================================================== *)

Module Py.

(** ** Outcomes of code that may raise *)

Inductive Result (A : Type) : Type :=
| Ok (a : A)
| Raise (exc : string).
Arguments Ok {A} a.
Arguments Raise {A} exc.

Definition bind {A B} (r : Result A) (k : A -> Result B) : Result B :=
  match r with
  | Ok a => k a
  | Raise e => Raise e
  end.

Notation "x <- c ;; k" := (bind c (fun x => k))
  (at level 61, c at next level, right associativity).

Fixpoint mapM {A B} (f : A -> Result B) (l : list A) : Result (list B) :=
  match l with
  | [] => Ok []
  | x :: xs =>
      y <- f x ;;
      ys <- mapM f xs ;;
      Ok (y :: ys)
  end.

(** [seq[i]] for a non-negative index: [IndexError] out of range. *)
Definition index {A} (l : list A) (i : nat) : Result A :=
  match nth_error l i with
  | Some a => Ok a
  | None => Raise "IndexError"
  end.

(** [enumerate(l)] *)
Definition enumerate {A} (l : list A) : list (nat * A) :=
  combine (seq 0 (List.length l)) l.

(** ** Floats, as exact rationals *)

Definition ltb (a b : Q) : bool := negb (Qle_bool b a).
Definition leb (a b : Q) : bool := Qle_bool a b.

(** [min(a, b)]: the first argument unless the second is smaller. *)
Definition min (a b : Q) : Q := if ltb b a then b else a.

(** Nearest integer, ties to the even one. *)
Definition round_half_even (q : Q) : Z :=
  let f := Qfloor q in
  match ((q - inject_Z f) ?= (1 # 2))%Q with
  | Lt => f
  | Gt => f + 1
  | Eq => if Z.even f then f else f + 1
  end.

(** [round(q, 2)] *)
Definition round2 (q : Q) : Q :=
  (inject_Z (round_half_even (q * 100)) / 100)%Q.

Definition sum (l : list Q) : Q := fold_left Qplus l 0%Q.

Definition mean (l : list Q) : Q :=
  (sum l / inject_Z (Z.of_nat (List.length l)))%Q.

(** ** Strings *)

Definition is_upper (c : ascii) : bool :=
  let n := nat_of_ascii c in (65 <=? n)%nat && (n <=? 90)%nat.

Definition lower_ascii (c : ascii) : ascii :=
  if is_upper c then ascii_of_nat (nat_of_ascii c + 32) else c.

(** [s.lower()] *)
Fixpoint lower (s : string) : string :=
  match s with
  | EmptyString => EmptyString
  | String c r => String (lower_ascii c) (lower r)
  end.

(** [c.isspace()] on the ASCII range: TAB, LF, VT, FF, CR, FS, GS, RS, US
    and the space. *)
Definition isspace (c : ascii) : bool :=
  let n := nat_of_ascii c in
  ((9 <=? n)%nat && (n <=? 13)%nat) || ((28 <=? n)%nat && (n <=? 32)%nat).

(** [sub in s] *)
Fixpoint contains (sub s : string) : bool :=
  String.prefix sub s ||
  match s with
  | EmptyString => false
  | String _ r => contains sub r
  end.

(** [any(p(x) for x in l)] *)
Definition any {A} (p : A -> bool) (l : list A) : bool := existsb p l.

Fixpoint lstrip (s : string) : string :=
  match s with
  | EmptyString => EmptyString
  | String c r => if isspace c then lstrip r else s
  end.

Fixpoint rstrip (s : string) : string :=
  match s with
  | EmptyString => EmptyString
  | String c r =>
      match rstrip r with
      | EmptyString => if isspace c then EmptyString else String c EmptyString
      | r' => String c r'
      end
  end.

(** [s.strip()] *)
Definition strip (s : string) : string := rstrip (lstrip s).

(** [s.split()]: maximal runs of non-whitespace characters.  [cur] is the
    word being read, reversed. *)
Fixpoint split_from (cur : list ascii) (s : string) : list string :=
  let flush (k : list string) :=
    match cur with
    | [] => k
    | _ => string_of_list_ascii (rev cur) :: k
    end in
  match s with
  | EmptyString => flush []
  | String c r =>
      if isspace c then flush (split_from [] r) else split_from (c :: cur) r
  end.

Definition split (s : string) : list string := split_from [] s.

(** [str(n)] for integers *)
Definition str_nat (n : nat) : string := NilZero.string_of_uint (Nat.to_uint n).
Definition str_Z (z : Z) : string := NilZero.string_of_int (Z.to_int z).

(** ** Lists and dicts *)

(** [sorted(l, key=key, reverse=True)]: descending and stable, elements
    with equal keys keep their relative order. *)
Section Sorted.
Context {A K : Type} (key : A -> K) (le : K -> K -> bool).

Fixpoint insert_desc (x : A) (l : list A) : list A :=
  match l with
  | [] => [x]
  | y :: ys =>
      if le (key y) (key x) then x :: y :: ys else y :: insert_desc x ys
  end.

Definition sorted_desc (l : list A) : list A :=
  fold_right insert_desc [] l.
End Sorted.

(** [{key(x): x for x in l}.get(k)]: the last entry with that key wins. *)
Definition dict_get {A} (key : A -> string) (l : list A) (k : string)
  : option A :=
  find (fun x => String.eqb (key x) k) (rev l).

End Py.

Import Py.

(* ================================================================== *)
(** * Schemas ([src/schemas/state.py], [src/schemas/campaign.py]) *)
(* ================================================================== *)

Module RawKeyword.
Record t : Type := mk {
  keyword : string;
  avg_monthly_searches : Z;
  competition : Q;
  suggested_bid : Q;
  search_intent : option string;
  opportunity_score : option Q
}.

(** [kw.opportunity_score = v] *)
Definition set_opportunity_score (kw : t) (v : Q) : t :=
  mk (keyword kw) (avg_monthly_searches kw) (competition kw)
     (suggested_bid kw) (search_intent kw) (Some v).
End RawKeyword.

(** Only the fields the modelled stages read are kept ([expansions],
    [headlines], [descriptions], [landing_candidate], [vector] are carried
    by the enrichment collaborator and never inspected here). *)
Module EnrichedKeyword.
Record t : Type := mk {
  keyword_id : string;
  intent : string;
  confidence : Q
}.
End EnrichedKeyword.

Module AdGroup.
Record t : Type := mk {
  id : string;
  name : string;
  keywords : list string;
  centroid : list Q;
  score : Q
}.
End AdGroup.

Module Bid.
Record t : Type := mk {
  keyword : string;
  match_types : list string;
  bid_low : Q;
  bid_high : Q;
  target_cpa : option Q
}.
End Bid.

Module AdGroupBids.
Record t : Type := mk {
  ad_group_id : string;
  ad_group_name : string;
  keywords : list Bid.t;
  target_cpa : option Q
}.
End AdGroupBids.

Module SmartBidding.
Record t : Type := mk {
  strategy : string;
  target_roas : Q
}.
End SmartBidding.

Module Campaign.
Record t : Type := mk {
  name : string;
  campaign_type : string;
  budget : Q;
  target_roas : Q;
  ad_groups : list AdGroupBids.t;
  smart_bidding : SmartBidding.t
}.
End Campaign.

(** The report dictionaries built by [campaign.py]. *)
Module Report.
Record SearchKeyword : Type := mkSearchKeyword {
  sk_keyword : string;
  sk_intent : string;
  sk_search_volume : Z;
  sk_suggested_bid : Q;
  sk_match_types : list string
}.

Record SearchAdGroup : Type := mkSearchAdGroup {
  sg_name : string;
  sg_keywords : list SearchKeyword
}.

Record Search : Type := mkSearch {
  search_budget_ : Q;
  search_target_roas : Q;
  search_ad_groups : list SearchAdGroup
}.

Record ProductBid : Type := mkProductBid {
  pb_keyword : string;
  pb_search_volume : Z;
  pb_competition : Q;
  pb_target_cpa : Q;
  pb_computed_cpc : Q;
  pb_expected_roas : Q
}.

Record Shopping : Type := mkShopping {
  shopping_budget_ : Q;
  shopping_target_roas : Q;
  product_bids : list ProductBid
}.

Record Theme : Type := mkTheme {
  theme_name : string;
  theme_description : string;
  theme_keywords : list string
}.

Record PMax : Type := mkPMax {
  pmax_budget_ : Q;
  pmax_target_roas : Q;
  themes : list Theme
}.

Record BudgetAllocation : Type := mkBudgetAllocation {
  total_budget : Q;
  search_budget : Q;
  shopping_budget : Q;
  pmax_budget : Q
}.

(** [final_report] has one of two shapes: the summary alone, or the summary
    with the three campaign reports and the budget allocation. *)
Inductive t : Type :=
| SummaryOnly (summary : string)
| Full (summary : string)
       (search_campaign : Search)
       (shopping_campaign : Shopping)
       (pmax_campaign : PMax)
       (budget_allocation : BudgetAllocation).

(** [report.get("pmax_campaign")] *)
Definition get_pmax_campaign (r : t) : option PMax :=
  match r with
  | SummaryOnly _ => None
  | Full _ _ _ p _ => Some p
  end.

End Report.

(** [initial_request]: the numeric keys the stages read with
    [.get(key, default)]; a key may be absent. *)
Module Request.
Record t : Type := mk {
  monthly_budget : option Q;
  target_cpa : option Q;
  target_roas : option Q
}.

(** [d.get(key, default)] *)
Definition get (v : option Q) (default : Q) : Q :=
  match v with
  | Some x => x
  | None => default
  end.
End Request.

(** [GlobalState].  [embeddings] is a dict in insertion order: keyword id to
    vector.  The analysis slots and the three campaign placeholders
    ([pmax_campaign], [shopping_campaign], [search_campaign]) are written by
    collaborators outside this development and read by none of the stages
    modelled here; their contents are kept as opaque documents. *)
Module GlobalState.
Definition document : Type := string.

Record t : Type := mk {
  initial_request : Request.t;
  job_id : string;
  error_log : list string;
  clustering_attempts : Z;
  brand_analysis : option document;
  competitor_analysis : option (list document);
  seed_keywords : option (list string);
  raw_keywords : option (list RawKeyword.t);
  enriched_keywords : option (list EnrichedKeyword.t);
  embeddings : list (string * list Q);
  ad_groups : option (list AdGroup.t);
  pmax_campaign : option document;
  shopping_campaign : option document;
  campaigns : option (list Campaign.t);
  search_campaign : option document;
  final_report : option Report.t
}.
End GlobalState.

(** ** Partial state updates

    A node returns a dict from slot name to new value; the runtime overwrites
    exactly the named slots. *)
Module Update.
Inductive entry : Type :=
| error_log (v : list string)
| clustering_attempts (v : Z)
| raw_keywords (v : list RawKeyword.t)
| ad_groups (v : list AdGroup.t)
| campaigns (v : list Campaign.t)
| final_report (v : Report.t).

Definition t : Type := list entry.

(** The dict key of an entry. *)
Definition key (e : entry) : string :=
  match e with
  | error_log _ => "error_log"
  | clustering_attempts _ => "clustering_attempts"
  | raw_keywords _ => "raw_keywords"
  | ad_groups _ => "ad_groups"
  | campaigns _ => "campaigns"
  | final_report _ => "final_report"
  end.

Definition keys (u : t) : list string := map key u.

Definition write (s : GlobalState.t) (e : entry) : GlobalState.t :=
  let '(GlobalState.mk req job log att brand comp seeds raw enr emb grp
                       pmax shop cmp srch rep) := s in
  match e with
  | error_log v =>
      GlobalState.mk req job v att brand comp seeds raw enr emb grp
                     pmax shop cmp srch rep
  | clustering_attempts v =>
      GlobalState.mk req job log v brand comp seeds raw enr emb grp
                     pmax shop cmp srch rep
  | raw_keywords v =>
      GlobalState.mk req job log att brand comp seeds (Some v) enr emb grp
                     pmax shop cmp srch rep
  | ad_groups v =>
      GlobalState.mk req job log att brand comp seeds raw enr emb (Some v)
                     pmax shop cmp srch rep
  | campaigns v =>
      GlobalState.mk req job log att brand comp seeds raw enr emb grp
                     pmax shop (Some v) srch rep
  | final_report v =>
      GlobalState.mk req job log att brand comp seeds raw enr emb grp
                     pmax shop cmp srch (Some v)
  end.

(** Merging an update into the state. *)
Definition apply (s : GlobalState.t) (u : t) : GlobalState.t :=
  fold_left write u s.
End Update.

(* ================================================================== *)
(** * Keyword Filter & Scorer ([src/agents/keyword_processor.py]) *)
(* ================================================================== *)

Module KeywordProcessor.
Local Open Scope Q_scope.

(** [handle_error(error, state)], with [e = str(error)]. *)
Definition handle_error (e : string) (state : GlobalState.t) : Update.t :=
  [Update.error_log (GlobalState.error_log state ++ [e])].

Definition commercial_modifiers : list string :=
  ["buy"; "price"; "deal"; "shop"; "purchase"; "store"; "online"]%string.

Definition search_volume_norm (kw : RawKeyword.t) : Q :=
  if (RawKeyword.avg_monthly_searches kw <=? 100)%Z then 0.2
  else if (RawKeyword.avg_monthly_searches kw <=? 1000)%Z then 0.5
  else if (RawKeyword.avg_monthly_searches kw <=? 5000)%Z then 0.8
  else 1.0.

Definition competition_score (kw : RawKeyword.t) : Q :=
  let competition_norm := Py.min (RawKeyword.competition kw / 5.0) 1.0 in
  1.0 - competition_norm.

Definition bid_norm (kw : RawKeyword.t) : Q :=
  Py.min (RawKeyword.suggested_bid kw / 100.0) 1.0.

Definition has_commercial_intent (kw : RawKeyword.t) : bool :=
  Py.any (fun mod_ => Py.contains mod_ (Py.lower (RawKeyword.keyword kw)))
         commercial_modifiers.

Definition _calculate_opportunity_score (kw : RawKeyword.t) : Q :=
  let base_score :=
    (search_volume_norm kw * 0.4) + (competition_score kw * 0.3)
    + (bid_norm kw * 0.3) in
  let base_score :=
    if has_commercial_intent kw then base_score * 1.2 else base_score in
  Py.min base_score 1.0.

(** The four [continue] tests of the filter loop, in source order. *)
Definition dropped (kw : RawKeyword.t) : bool :=
  (RawKeyword.avg_monthly_searches kw <? 50)%Z
  || Py.leb (RawKeyword.suggested_bid kw) 0
  || (6 <? List.length (Py.split (RawKeyword.keyword kw)))%nat
  || (String.length (Py.strip (RawKeyword.keyword kw)) <=? 1)%nat.

Definition _filter_keywords (keywords : list RawKeyword.t)
  : list RawKeyword.t :=
  filter (fun kw => negb (dropped kw)) keywords.

(** The scoring loop: a keyword reaching the threshold gets its score
    written and is kept.  The source writes the score into the keyword
    object it was handed; here the written record is the one passed on. *)
Fixpoint score_keywords (filtered : list RawKeyword.t) : list RawKeyword.t :=
  match filtered with
  | [] => []
  | kw :: rest =>
      let opportunity_score := _calculate_opportunity_score kw in
      if Py.leb 0.15 opportunity_score
      then RawKeyword.set_opportunity_score kw opportunity_score
             :: score_keywords rest
      else score_keywords rest
  end.

Definition max_keywords : nat := 150.

(** [__call__(state)].  The body runs inside [try ... except Exception as e:
    return self.handle_error(e, state)].  The computation itself cannot
    raise on well-typed keywords; [raised = Some msg] stands for an
    exception with [str(e) = msg] thrown inside the [try] block by the
    environment (the block writes progress lines to the console). *)
Definition __call__ (raised : option string) (state : GlobalState.t)
  : Update.t :=
  match raised with
  | Some e => handle_error e state
  | None =>
      match GlobalState.raw_keywords state with
      | None | Some [] => handle_error "No keywords to process" state
      | Some raw_keywords =>
          match _filter_keywords raw_keywords with
          | [] => [Update.raw_keywords []]
          | filtered =>
              let scored_keywords := score_keywords filtered in
              let sorted_keywords :=
                Py.sorted_desc
                  (fun x => match RawKeyword.opportunity_score x with
                            | Some v => v
                            | None => 0.0
                            end)
                  Py.leb scored_keywords in
              let sorted_keywords :=
                if (max_keywords <? List.length sorted_keywords)%nat
                then firstn max_keywords sorted_keywords
                else sorted_keywords in
              [Update.raw_keywords sorted_keywords]
          end
      end
  end.

End KeywordProcessor.

(* ================================================================== *)
(** * Cluster Builder ([src/agents/clustering.py]) *)
(* ================================================================== *)

Module ClusteringAgent.
Local Open Scope Q_scope.
Local Open Scope string_scope.

(** What [clusterer.fit_predict(embeddings_array)] did: it returned the
    label array (and the clusterer may then carry [probabilities_]), or it
    raised. *)
Inductive Fit : Type :=
| Fitted (cluster_labels : list Z) (probabilities_ : option (list Q))
| Failed (e : string).

(** [np.array(rows).ndim] for a list of float lists: a matrix when all rows
    have one length, otherwise a one-dimensional array of objects (NumPy
    releases that refuse ragged input raise at that point instead; the
    stage produces no groups either way). *)
Definition ndim (rows : list (list Q)) : nat :=
  match rows with
  | [] => 1
  | r :: rest =>
      if forallb (fun r' => (List.length r' =? List.length r)%nat) rest
      then 2 else 1
  end.

(** [rows.mean(axis=0)] of a matrix with [d] columns. *)
Definition mean_axis0 (d : nat) (rows : list (list Q)) : list Q :=
  map (fun j => Py.mean (map (fun r => nth j r 0) rows)) (seq 0 d).

(** [np.where(cluster_labels == c)[0]] *)
Definition where_eq (cluster_labels : list Z) (c : Z) : list nat :=
  map fst (filter (fun p => (snd p =? c)%Z) (Py.enumerate cluster_labels)).

(** The guarded score of a cluster: the mean membership probability, 0.8
    when the clusterer has none or reading it raises. *)
Definition cluster_score (probabilities_ : option (list Q))
           (cluster_indices : list nat) : Q :=
  match probabilities_ with
  | None => 0.8
  | Some p =>
      match Py.mapM (Py.index p) cluster_indices with
      | Py.Ok ps => Py.mean ps
      | Py.Raise _ => 0.8
      end
  end.

Section Agent.
(** The density clusterer, the iteration order of a Python [set] of
    labels, and the naming collaborator with its fallback. *)
Variable fit_predict : list (list Q) -> Fit.
Variable set_iter : list Z -> list Z.
Variable _generate_group_name : list string -> string.

(** Lines 38-53: one group per keyword when fewer than three. *)
Definition simple_groups (embeddings : list (string * list Q))
  : list AdGroup.t :=
  map (fun '(i, (keyword, vector)) =>
         AdGroup.mk ("group_" ++ Py.str_nat i)
                    ("Keywords Group " ++ Py.str_nat (i + 1))
                    [keyword] vector 0.8)
      (Py.enumerate embeddings).

(** Lines 76-86: one group per keyword after the clusterer raised. *)
Definition fallback_groups (keyword_ids : list string)
           (embeddings_array : list (list Q)) : Py.Result (list AdGroup.t) :=
  Py.mapM (fun '(i, keyword) =>
             row <- Py.index embeddings_array i ;;
             Py.Ok (AdGroup.mk ("fallback_group_" ++ Py.str_nat i)
                               ("Keyword Group " ++ Py.str_nat (i + 1))
                               [keyword] row 0.7))
          (Py.enumerate keyword_ids).

(** Lines 92-102: noise points become groups of their own. *)
Definition noise_groups (keyword_ids : list string)
           (embeddings_array : list (list Q)) (cluster_labels : list Z)
  : Py.Result (list AdGroup.t) :=
  let noise_indices := where_eq cluster_labels (-1) in
  Py.mapM (fun '(i, idx) =>
             keyword <- Py.index keyword_ids idx ;;
             row <- Py.index embeddings_array idx ;;
             Py.Ok (AdGroup.mk ("noise_group_" ++ Py.str_nat i)
                               ("Individual Keywords " ++ Py.str_nat (i + 1))
                               [keyword] row 0.6))
          (Py.enumerate noise_indices).

(** Lines 105-131: the body of the loop over [unique_clusters]; [None]
    is a [continue]. *)
Definition cluster_group (keyword_ids : list string)
           (embeddings_array : list (list Q)) (d : nat)
           (cluster_labels : list Z) (probabilities_ : option (list Q))
           (cluster_id : Z) : Py.Result (option AdGroup.t) :=
  if (cluster_id =? -1)%Z then Py.Ok None
  else
    let cluster_indices := where_eq cluster_labels cluster_id in
    match cluster_indices with
    | [] => Py.Ok None
    | _ =>
        cluster_keywords <- Py.mapM (Py.index keyword_ids) cluster_indices ;;
        rows <- Py.mapM (Py.index embeddings_array) cluster_indices ;;
        let centroid := mean_axis0 d rows in
        let score := cluster_score probabilities_ cluster_indices in
        let name := _generate_group_name cluster_keywords in
        Py.Ok (Some (AdGroup.mk ("group_" ++ Py.str_Z cluster_id) name
                                cluster_keywords centroid score))
    end.

(** [x for x in l if x is not None] *)
Definition somes {A} (l : list (option A)) : list A :=
  flat_map (fun o => match o with Some a => [a] | None => [] end) l.

(** [__call__(state)] *)
Definition __call__ (state : GlobalState.t) : Py.Result Update.t :=
  let embeddings := GlobalState.embeddings state in
  let attempts := (GlobalState.clustering_attempts state + 1)%Z in
  match embeddings with
  | [] => Py.Ok [Update.ad_groups []; Update.clustering_attempts attempts]
  | _ =>
    if (List.length embeddings <? 3)%nat then
      Py.Ok [Update.ad_groups (simple_groups embeddings);
             Update.clustering_attempts attempts]
    else
      let keyword_ids := map fst embeddings in
      let embeddings_array := map snd embeddings in
      if negb (ndim embeddings_array =? 2)%nat then
        Py.Ok [Update.ad_groups []; Update.clustering_attempts attempts]
      else
        match fit_predict embeddings_array with
        | Failed _ =>
            ad_groups <- fallback_groups keyword_ids embeddings_array ;;
            Py.Ok [Update.ad_groups ad_groups]
        | Fitted cluster_labels probabilities_ =>
            let d := List.length (hd [] embeddings_array) in
            noise <- noise_groups keyword_ids embeddings_array cluster_labels ;;
            clusters <- Py.mapM (cluster_group keyword_ids embeddings_array d
                                               cluster_labels probabilities_)
                                (set_iter cluster_labels) ;;
            let ad_groups := (noise ++ somes clusters)%list in
            let ad_groups :=
              match ad_groups, keyword_ids with
              | [], _ :: _ =>
                  [AdGroup.mk "default_group" "All Keywords" keyword_ids
                              (mean_axis0 d embeddings_array) 0.7]
              | _, _ => ad_groups
              end in
            Py.Ok [Update.ad_groups ad_groups;
                   Update.clustering_attempts attempts]
        end
  end.

End Agent.
End ClusteringAgent.

(* ================================================================== *)
(** * Quality Gate and clustering loop ([src/workflow.py]) *)
(* ================================================================== *)

Module WorkflowBuilder.
Local Open Scope Q_scope.

(** The two labels of the conditional edge after [cluster_keywords]. *)
Inductive Route : Type :=
| recluster
| continue_processing.

(** [len(g.keywords) < 3 or g.score < 0.7] *)
Definition poor (g : AdGroup.t) : bool :=
  (List.length (AdGroup.keywords g) <? 3)%nat || Py.ltb (AdGroup.score g) 0.7.

(** [_should_recluster(state)].  The test [len(poor) > len(groups) * 0.3]
    multiplies by the double nearest to 0.3; against an integer count that
    product compares as the exact one does, which is how it is read here. *)
Definition _should_recluster (state : GlobalState.t) : Route :=
  let ad_groups :=
    match GlobalState.ad_groups state with
    | Some l => l
    | None => []
    end in
  match GlobalState.embeddings state with
  | [] => continue_processing
  | _ =>
      match ad_groups with
      | [] =>
          if (GlobalState.clustering_attempts state >=? 3)%Z
          then continue_processing
          else recluster
      | _ =>
          let poor_clusters := filter poor ad_groups in
          if Py.ltb (inject_Z (Z.of_nat (List.length ad_groups)) * 0.3)
                    (inject_Z (Z.of_nat (List.length poor_clusters)))
          then
            if (GlobalState.clustering_attempts state >=? 2)%Z
            then continue_processing
            else recluster
          else continue_processing
      end
  end.

Section Graph.
Variable fit_predict : list (list Q) -> ClusteringAgent.Fit.
Variable set_iter : list Z -> list Z.
Variable _generate_group_name : list string -> string.

(** One execution of the node [cluster_keywords]: the agent runs and the
    runtime merges its update. *)
Definition cluster_keywords (state : GlobalState.t)
  : Py.Result GlobalState.t :=
  update <- ClusteringAgent.__call__ fit_predict set_iter
                                     _generate_group_name state ;;
  Py.Ok (Update.apply state update).

(** The cycle [cluster_keywords -> _should_recluster -> cluster_keywords]
    under a step budget (the graph is invoked with a recursion limit).
    [Some (s, n)]: the gate answered [continue_processing] after [n] runs
    of the node, leaving state [s]; [None]: the budget ran out while the
    gate was still answering [recluster]. *)
Fixpoint clustering_loop (budget : nat) (runs : nat) (state : GlobalState.t)
  : Py.Result (option (GlobalState.t * nat)) :=
  match budget with
  | O => Py.Ok None
  | S budget' =>
      state' <- cluster_keywords state ;;
      match _should_recluster state' with
      | recluster => clustering_loop budget' (S runs) state'
      | continue_processing => Py.Ok (Some (state', S runs))
      end
  end.
End Graph.
End WorkflowBuilder.

(* ================================================================== *)
(** * Budget & Bid Allocator ([src/agents/campaign.py]) *)
(* ================================================================== *)

Module CampaignDesignerAgent.
Local Open Scope Q_scope.
Local Open Scope string_scope.

(** [_get_match_types(intent)] *)
Definition _get_match_types (intent : string) : list string :=
  let intent := Py.lower intent in
  if intent =? "brand" then ["EXACT"; "PHRASE"]
  else if intent =? "competitor" then ["PHRASE"; "EXACT"]
  else if existsb (String.eqb intent)
                  ["transactional"; "commercial"; "high_intent"]
  then ["BROAD"; "PHRASE"]
  else ["PHRASE"].

(** [state.ad_groups or []], [state.raw_keywords or []], ... *)
Definition or_empty {A} (o : option (list A)) : list A :=
  match o with
  | Some l => l
  | None => []
  end.

Definition target_cpa_of (state : GlobalState.t) : Q :=
  Request.get (Request.target_cpa (GlobalState.initial_request state)) 50.0.

Definition target_roas_of (state : GlobalState.t) : Q :=
  Request.get (Request.target_roas (GlobalState.initial_request state)) 3.0.

(** Lines 94-111: the bid of one keyword found in both maps. *)
Definition make_bid (state : GlobalState.t) (keyword_id : string)
           (enriched : EnrichedKeyword.t) (raw : RawKeyword.t) : Bid.t :=
  let match_types := _get_match_types (EnrichedKeyword.intent enriched) in
  let target_cpa := target_cpa_of state in
  let conversion_rate := 0.02 in
  let bid_multiplier := 1.0 + (RawKeyword.competition raw * 0.2) in
  let base_bid := target_cpa * conversion_rate in
  let conservative_bid := Py.round2 (base_bid * bid_multiplier * 0.8) in
  let aggressive_bid := Py.round2 (base_bid * bid_multiplier * 1.2) in
  Bid.mk keyword_id match_types conservative_bid aggressive_bid
         (Some target_cpa).

(** The inner loop over [group.keywords]: a keyword missing from either
    map is skipped. *)
Definition group_bids (state : GlobalState.t) (group : AdGroup.t)
  : list Bid.t :=
  flat_map
    (fun keyword_id =>
       match
         Py.dict_get EnrichedKeyword.keyword_id
                     (or_empty (GlobalState.enriched_keywords state))
                     keyword_id,
         Py.dict_get RawKeyword.keyword
                     (or_empty (GlobalState.raw_keywords state))
                     keyword_id
       with
       | Some enriched, Some raw => [make_bid state keyword_id enriched raw]
       | _, _ => []
       end)
    (AdGroup.keywords group).

(** [_create_search_campaign(state, budget)]; it is only called once
    [state.ad_groups] is known to be a non-empty list. *)
Definition _create_search_campaign (state : GlobalState.t) (budget : Q)
  : Campaign.t :=
  let ad_groups_with_bids :=
    map (fun group =>
           AdGroupBids.mk (AdGroup.id group) (AdGroup.name group)
                          (group_bids state group)
                          (Some (target_cpa_of state)))
        (or_empty (GlobalState.ad_groups state)) in
  Campaign.mk "Search Campaign" "search" budget (target_roas_of state)
              ad_groups_with_bids
              (SmartBidding.mk "TARGET_ROAS" (target_roas_of state)).

(** [_create_shopping_campaign(state, budget)] *)
Definition _create_shopping_campaign (state : GlobalState.t) (budget : Q)
  : Campaign.t :=
  Campaign.mk "Shopping Campaign" "shopping" budget (target_roas_of state)
              []
              (SmartBidding.mk "TARGET_ROAS" (target_roas_of state)).

(** [_create_pmax_campaign(state, budget)] *)
Definition _create_pmax_campaign (state : GlobalState.t) (budget : Q)
  : Campaign.t :=
  Campaign.mk "Performance Max Campaign" "pmax" budget (target_roas_of state)
              []
              (SmartBidding.mk "MAXIMIZE_CONVERSION_VALUE"
                               (target_roas_of state)).

(** [_format_search_campaign(campaign, state)] *)
Definition _format_search_campaign (campaign : Campaign.t)
           (state : GlobalState.t) : Report.Search :=
  let format_group (group : AdGroup.t) : list Report.SearchAdGroup :=
    let keywords :=
      flat_map
        (fun keyword_id =>
           match
             Py.dict_get EnrichedKeyword.keyword_id
                         (or_empty (GlobalState.enriched_keywords state))
                         keyword_id,
             Py.dict_get RawKeyword.keyword
                         (or_empty (GlobalState.raw_keywords state))
                         keyword_id
           with
           | Some enriched, Some raw =>
               [Report.mkSearchKeyword
                  keyword_id (EnrichedKeyword.intent enriched)
                  (RawKeyword.avg_monthly_searches raw)
                  (RawKeyword.suggested_bid raw)
                  (_get_match_types (EnrichedKeyword.intent enriched))]
           | _, _ => []
           end)
        (AdGroup.keywords group) in
    match keywords with
    | [] => []
    | _ => [Report.mkSearchAdGroup (AdGroup.name group) keywords]
    end in
  Report.mkSearch (Campaign.budget campaign) (Campaign.target_roas campaign)
                  (flat_map format_group
                            (or_empty (GlobalState.ad_groups state))).

(** [_format_shopping_campaign(campaign, state)] *)
Definition _format_shopping_campaign (campaign : Campaign.t)
           (state : GlobalState.t) : Report.Shopping :=
  let top_keywords :=
    firstn 20 (Py.sorted_desc RawKeyword.avg_monthly_searches Z.leb
                              (or_empty (GlobalState.raw_keywords state))) in
  let product_bid (keyword : RawKeyword.t) : Report.ProductBid :=
    let target_cpa := 50.0 in
    let conversion_rate := 0.02 in
    let computed_cpc :=
      target_cpa * conversion_rate
      * (1 + RawKeyword.competition keyword * 0.3) in
    Report.mkProductBid (RawKeyword.keyword keyword)
                        (RawKeyword.avg_monthly_searches keyword)
                        (RawKeyword.competition keyword)
                        target_cpa (Py.round2 computed_cpc)
                        (target_roas_of state) in
  Report.mkShopping (Campaign.budget campaign)
                    (Campaign.target_roas campaign)
                    (map product_bid top_keywords).

Definition default_themes : list Report.Theme :=
  [Report.mkTheme
     "Brand Awareness Theme"
     "Broad reach campaign targeting brand awareness and consideration."
     [];
   Report.mkTheme
     "Product Category Theme"
     "Product-focused campaign targeting high-intent shoppers."
     []].

(** [_format_pmax_campaign(campaign, state)] *)
Definition _format_pmax_campaign (campaign : Campaign.t)
           (state : GlobalState.t) : Report.PMax :=
  let themes :=
    map (fun group =>
           Report.mkTheme
             (AdGroup.name group ++ " Theme")
             ("Performance Max asset group targeting "
                ++ Py.lower (AdGroup.name group)
                ++ " related searches and audiences.")
             (firstn 10 (AdGroup.keywords group)))
        (or_empty (GlobalState.ad_groups state)) in
  let themes :=
    match themes with
    | [] => default_themes
    | _ => themes
    end in
  Report.mkPMax (Campaign.budget campaign) (Campaign.target_roas campaign)
                themes.

(** [_count_total_keywords(state)] *)
Definition _count_total_keywords (state : GlobalState.t) : nat :=
  match GlobalState.ad_groups state with
  | None | Some [] => 0
  | Some groups =>
      list_sum (map (fun group => List.length (AdGroup.keywords group))
                    groups)
  end.

(** [__call__(state)] *)
Definition __call__ (state : GlobalState.t) : Update.t :=
  match GlobalState.ad_groups state with
  | None | Some [] =>
      [Update.campaigns [];
       Update.final_report (Report.SummaryOnly "No ad groups to process.")]
  | Some _ =>
      let total_budget :=
        Request.get (Request.monthly_budget
                       (GlobalState.initial_request state)) 0.0 in
      let search_budget := total_budget * 0.5 in
      let shopping_budget := total_budget * 0.3 in
      let pmax_budget := total_budget * 0.2 in
      let search_campaign := _create_search_campaign state search_budget in
      let shopping_campaign :=
        _create_shopping_campaign state shopping_budget in
      let pmax_campaign := _create_pmax_campaign state pmax_budget in
      let campaigns := [search_campaign; shopping_campaign; pmax_campaign] in
      let final_report :=
        Report.Full
          ("Generated " ++ Py.str_nat (List.length campaigns)
             ++ " campaigns with "
             ++ Py.str_nat (_count_total_keywords state) ++ " keywords.")
          (_format_search_campaign search_campaign state)
          (_format_shopping_campaign shopping_campaign state)
          (_format_pmax_campaign pmax_campaign state)
          (Report.mkBudgetAllocation total_budget search_budget
                                     shopping_budget pmax_budget) in
      [Update.campaigns campaigns; Update.final_report final_report]
  end.

End CampaignDesignerAgent.


(* ================================================================== *)
(** * Notions used to state the properties *)
(* ================================================================== *)

Module Spec.
Local Open Scope Q_scope.

(** A poor ad group, in the words of the specification: fewer than three
    members, or a score below 0.7. *)
Definition poor_group (g : AdGroup.t) : Prop :=
  (List.length (AdGroup.keywords g) < 3)%nat \/ AdGroup.score g < 0.7.

(** The keyword stage failed: an exception escaped the body, or the input
    slot was missing or empty. *)
Definition stage_failed (raised : option string) (state : GlobalState.t)
  : Prop :=
  raised <> None
  \/ GlobalState.raw_keywords state = None
  \/ GlobalState.raw_keywords state = Some [].

(** Two states agree on every slot but the error log. *)
Definition same_but_error_log (s s' : GlobalState.t) : Prop :=
  GlobalState.initial_request s' = GlobalState.initial_request s
  /\ GlobalState.job_id s' = GlobalState.job_id s
  /\ GlobalState.clustering_attempts s' = GlobalState.clustering_attempts s
  /\ GlobalState.brand_analysis s' = GlobalState.brand_analysis s
  /\ GlobalState.competitor_analysis s' = GlobalState.competitor_analysis s
  /\ GlobalState.seed_keywords s' = GlobalState.seed_keywords s
  /\ GlobalState.raw_keywords s' = GlobalState.raw_keywords s
  /\ GlobalState.enriched_keywords s' = GlobalState.enriched_keywords s
  /\ GlobalState.embeddings s' = GlobalState.embeddings s
  /\ GlobalState.ad_groups s' = GlobalState.ad_groups s
  /\ GlobalState.pmax_campaign s' = GlobalState.pmax_campaign s
  /\ GlobalState.shopping_campaign s' = GlobalState.shopping_campaign s
  /\ GlobalState.campaigns s' = GlobalState.campaigns s
  /\ GlobalState.search_campaign s' = GlobalState.search_campaign s
  /\ GlobalState.final_report s' = GlobalState.final_report s.

(** The keyword ids of an embedding map, and all members of a list of
    groups, in order. *)
Definition keyword_ids (state : GlobalState.t) : list string :=
  map fst (GlobalState.embeddings state).

Definition members (groups : list AdGroup.t) : list string :=
  List.concat (map AdGroup.keywords groups).

(** All vectors of the embedding map have one dimension. *)
Definition same_dimension (state : GlobalState.t) : Prop :=
  forall v w,
    In v (map snd (GlobalState.embeddings state)) ->
    In w (map snd (GlobalState.embeddings state)) ->
    List.length v = List.length w.

(** The clusterer answers with one label per row (or with no label). *)
Definition labels_every_row (fit_predict : list (list Q) -> ClusteringAgent.Fit)
           (state : GlobalState.t) : Prop :=
  forall labels p,
    fit_predict (map snd (GlobalState.embeddings state))
    = ClusteringAgent.Fitted labels p ->
    List.length labels = List.length (GlobalState.embeddings state)
    \/ labels = [].

(** Iterating over a set visits each of its elements once. *)
Definition enumerates_set (set_iter : list Z -> list Z) : Prop :=
  forall l, NoDup (set_iter l) /\ (forall x, In x (set_iter l) <-> In x l).

(** All bids of a campaign. *)
Definition bids (c : Campaign.t) : list Bid.t :=
  flat_map AdGroupBids.keywords (Campaign.ad_groups c).

(** The weighted sum of the three score components, before the boost. *)
Definition weighted (kw : RawKeyword.t) : Q :=
  (KeywordProcessor.search_volume_norm kw * 0.4)
  + (KeywordProcessor.competition_score kw * 0.3)
  + (KeywordProcessor.bid_norm kw * 0.3).

(** [state.ad_groups or []] *)
Definition groups_of (state : GlobalState.t) : list AdGroup.t :=
  match GlobalState.ad_groups state with
  | Some l => l
  | None => []
  end.

(** The number of poor groups, and of groups scoring below 0.7. *)
Definition poor_count (groups : list AdGroup.t) : nat :=
  List.length (filter WorkflowBuilder.poor groups).

Definition low_score_count (groups : list AdGroup.t) : nat :=
  List.length (filter (fun g => Py.ltb (AdGroup.score g) 0.7) groups).

(** A length or a count, as a number the gate compares. *)
Definition size {A} (l : list A) : Q := inject_Z (Z.of_nat (List.length l)).

Definition count (n : nat) : Q := inject_Z (Z.of_nat n).

End Spec.

(** Bookkeeping for the proofs about the cluster builder. *)
Module Aux.
Local Open Scope string_scope.

(** The elements of [l] whose key is [c]. *)
Definition block {A} (f : A -> Z) (l : list A) (c : Z) : list A :=
  filter (fun x => (f x =? c)%Z) l.

(** The keyword at a row index. *)
Definition key_at (keyword_ids : list string) (idx : nat) : string :=
  nth idx keyword_ids "".

(** The row indices in the order the groups list them: noise first, then
    cluster by cluster. *)
Definition grouped_indices (cluster_labels : list Z) (order : list Z)
  : list nat :=
  (ClusteringAgent.where_eq cluster_labels (-1)
   ++ List.concat
        (map (fun c => if (c =? -1)%Z then []
                       else ClusteringAgent.where_eq cluster_labels c)
             order))%list.

End Aux.

(* ================================================================== *)
(** * Concrete inputs *)
(* ================================================================== *)

Module Scenario.
Local Open Scope Q_scope.
Local Open Scope string_scope.

Definition request (budget cpa : option Q) : Request.t :=
  Request.mk budget cpa None.

(** A pipeline context of a job with an empty error log, holding the given
    keyword lists, embeddings and ad groups and nothing else. *)
Definition context (req : Request.t) (attempts : Z)
           (raw : option (list RawKeyword.t))
           (enriched : option (list EnrichedKeyword.t))
           (embeddings : list (string * list Q))
           (groups : option (list AdGroup.t)) : GlobalState.t :=
  GlobalState.mk req "job_1" [] attempts None None None raw enriched
                 embeddings groups None None None None None.

Definition cheap_shoes : RawKeyword.t :=
  RawKeyword.mk "cheap shoes" 80 2 1.0 None None.

Definition buy_shoes : RawKeyword.t :=
  RawKeyword.mk "buy shoes" 80 2 1.0 None None.

Definition with_raw (raw : option (list RawKeyword.t)) : GlobalState.t :=
  context (request None None) 0 raw None [] None.

(** Three keywords with two-dimensional vectors. *)
Definition three_embeddings : list (string * list Q) :=
  [("red shoes", [0; 1]); ("blue shoes", [0; 2]); ("garden hose", [9; 9])].

Definition clustering_state (attempts : Z) : GlobalState.t :=
  context (request None None) attempts None None three_embeddings None.

(** A clusterer that raises, and one that puts the first two rows together
    and marks the third as noise. *)
Definition failing_fit (_ : list (list Q)) : ClusteringAgent.Fit :=
  ClusteringAgent.Failed "clusterer failed".

Definition fit_two_and_noise (_ : list (list Q)) : ClusteringAgent.Fit :=
  ClusteringAgent.Fitted [0; 0; -1]%Z (Some [1; 1; 0]).

Definition set_iter (l : list Z) : list Z := nodup Z.eq_dec l.

Definition group_name (keywords : list string) : string :=
  String.concat " " keywords.

(** Five ad groups of three members each, two of them scoring below 0.7. *)
Definition group (score : Q) : AdGroup.t :=
  AdGroup.mk "group_0" "Shoes" ["a"; "b"; "c"] [] score.

Definition five_groups : list AdGroup.t :=
  [group 0.9; group 0.6; group 0.8; group 0.5; group 0.75].

Definition gate_state (attempts : Z) : GlobalState.t :=
  context (request None None) attempts None None three_embeddings
          (Some five_groups).

(** One ad group with one keyword known to both keyword lists. *)
Definition shoes_raw : RawKeyword.t :=
  RawKeyword.mk "red shoes" 500 0 1.5 None (Some 0.5).

Definition shoes_enriched : EnrichedKeyword.t :=
  EnrichedKeyword.mk "red shoes" "transactional" 0.9.

Definition shoes_group : AdGroup.t :=
  AdGroup.mk "group_0" "Shoes" ["red shoes"] [0; 1] 0.8.

Definition campaign_state (budget cpa : option Q)
           (groups : option (list AdGroup.t)) : GlobalState.t :=
  context (request budget cpa) 1 (Some [shoes_raw]) (Some [shoes_enriched])
          [("red shoes", [0; 1])] groups.



Definition no_groups : GlobalState.t :=
  campaign_state (Some 1000) None None.

End Scenario.

From Stdlib Require Import Sorted.

(* ================================================================== *)
(** * Further Python primitives *)
(* ================================================================== *)

Module PyText.
Local Open Scope string_scope.

Definition is_lower (c : ascii) : bool :=
  let n := nat_of_ascii c in (97 <=? n)%nat && (n <=? 122)%nat.

Definition upper_ascii (c : ascii) : ascii :=
  if is_lower c then ascii_of_nat (nat_of_ascii c - 32) else c.

Definition isalpha (c : ascii) : bool := Py.is_upper c || is_lower c.

(** [s.title()]: a letter is upper-cased when the character before it is not
    a letter and lower-cased otherwise; other characters are kept. *)
Fixpoint title_from (after_letter : bool) (s : string) : string :=
  match s with
  | EmptyString => EmptyString
  | String c r =>
      if isalpha c
      then String (if after_letter then Py.lower_ascii c else upper_ascii c)
                  (title_from true r)
      else String c (title_from false r)
  end.

Definition title (s : string) : string := title_from false s.

(** The double quote character. *)
Definition double_quote : ascii := ascii_of_nat 34.

(** [s.replace(c, '')] for a one-character [c] *)
Fixpoint remove_char (c : ascii) (s : string) : string :=
  match s with
  | EmptyString => EmptyString
  | String a r =>
      if Ascii.eqb a c then remove_char c r else String a (remove_char c r)
  end.

(** [sep.join(l)] *)
Definition join (sep : string) (l : list string) : string :=
  String.concat sep l.

(** [d[k] = v] on a dict kept in insertion order: an existing key keeps its
    place and takes the new value, a new key goes to the end. *)
Fixpoint dict_set {V} (d : list (string * V)) (k : string) (v : V)
  : list (string * V) :=
  match d with
  | [] => [(k, v)]
  | (k', v') :: rest =>
      if String.eqb k' k then (k', v) :: rest
      else (k', v') :: dict_set rest k v
  end.

End PyText.

(* ================================================================== *)
(** * Fallback names ([src/agents/fallback_naming.py]) *)
(* ================================================================== *)

Module FallbackNaming.
Local Open Scope string_scope.

Definition purchase_words : list string := ["buy"; "purchase"; "order"].
Definition research_words : list string := ["best"; "top"; "review"].
Definition price_words : list string := ["cheap"; "discount"; "deal"].
Definition local_words : list string := ["near me"; "local"; "location"].

(** [any(word in base_keyword for word in words)] *)
Definition mentions (words : list string) (base_keyword : string) : bool :=
  Py.any (fun word => Py.contains word base_keyword) words.

(** [generate_group_name(keywords)] *)
Definition generate_group_name (keywords : list string) : string :=
  match keywords with
  | [] => "Unnamed Group"
  | first :: _ =>
      let base_keyword := Py.lower first in
      if mentions purchase_words base_keyword then "Purchase Intent"
      else if mentions research_words base_keyword then "Research Intent"
      else if mentions price_words base_keyword then "Price Focused"
      else if mentions local_words base_keyword then "Local Search"
      else
        let words := Py.split base_keyword in
        if (1 <? List.length words)%nat
        then PyText.title (last words "") ++ " Keywords"
        else PyText.title base_keyword ++ " Group"
  end.

End FallbackNaming.

(* ================================================================== *)
(** * Naming an ad group ([src/agents/clustering.py], [_generate_group_name]) *)
(* ================================================================== *)

Module GroupNaming.
Local Open Scope string_scope.

(** The prompt sent for a group: its first five keywords. *)
Definition prompt_for (keywords : list string) : string :=
  "Generate a short, concise (2-3 words max) ad group name that summarizes this keyword theme: "
    ++ PyText.join ", " (firstn 5 keywords).

(** [text.strip().replace(quote, '')] *)
Definition clean (text : string) : string :=
  PyText.remove_char PyText.double_quote (Py.strip text).

Section Collaborators.
(** [self.cache.get(prompt)], and the content of the first choice of
    [self.client.chat.completions.create(...)] or the exception it raised.
    Writing the answer back to the cache has no part in the returned name. *)
Variable cache_get : string -> option string.
Variable chat_completion : string -> Py.Result string.

(** [_generate_group_name(keywords)] *)
Definition _generate_group_name (keywords : list string) : string :=
  match keywords with
  | [] => "Unnamed Group"
  | _ =>
      let prompt := prompt_for keywords in
      let ask (_ : unit) :=
        match chat_completion prompt with
        | Py.Ok content => clean content
        | Py.Raise _ => FallbackNaming.generate_group_name keywords
        end in
      match cache_get prompt with
      | Some EmptyString | None => ask tt
      | Some cached_response => clean cached_response
      end
  end.

End Collaborators.
End GroupNaming.

(* ================================================================== *)
(** * Updates of the remaining nodes *)
(* ================================================================== *)

(** The nodes below also write the seed-keyword, enriched-keyword and
    embedding slots. *)
Module Patch.
Inductive entry : Type :=
| core (e : Update.entry)
| seed_keywords (v : list string)
| enriched_keywords (v : list EnrichedKeyword.t)
| embeddings (v : list (string * list Q)).

Definition t : Type := list entry.

Definition key (e : entry) : string :=
  match e with
  | core e' => Update.key e'
  | seed_keywords _ => "seed_keywords"
  | enriched_keywords _ => "enriched_keywords"
  | embeddings _ => "embeddings"
  end.

Definition write (s : GlobalState.t) (e : entry) : GlobalState.t :=
  match e with
  | core e' => Update.write s e'
  | seed_keywords v =>
      let '(GlobalState.mk req job log att brand comp _ raw enr emb grp
                           pmax shop cmp srch rep) := s in
      GlobalState.mk req job log att brand comp (Some v) raw enr emb grp
                     pmax shop cmp srch rep
  | enriched_keywords v =>
      let '(GlobalState.mk req job log att brand comp seeds raw _ emb grp
                           pmax shop cmp srch rep) := s in
      GlobalState.mk req job log att brand comp seeds raw (Some v) emb grp
                     pmax shop cmp srch rep
  | embeddings v =>
      let '(GlobalState.mk req job log att brand comp seeds raw enr _ grp
                           pmax shop cmp srch rep) := s in
      GlobalState.mk req job log att brand comp seeds raw enr v grp
                     pmax shop cmp srch rep
  end.

Definition apply (s : GlobalState.t) (u : t) : GlobalState.t :=
  fold_left write u s.

(** An update of the core stages, as a patch. *)
Definition of_update (u : Update.t) : t := map core u.

End Patch.

(* ================================================================== *)
(** * Embedding the keywords ([src/agents/vector_ops.py], [VectorManager]) *)
(* ================================================================== *)

Module VectorManager.
Local Open Scope string_scope.

(** A row handed to the vector store: id, vector, search volume and
    competition. *)
Record Row : Type := mkRow {
  row_id : string;
  row_vector : list Q;
  row_search_volume : Z;
  row_competition : Q
}.

Section Node.
(** The sentence encoder ([self.model.encode(keyword).tolist()]) and the
    vector store ([self.db_service.upsert_keywords]), which may raise. *)
Variable _generate_vector : string -> list Q.
Variable upsert_keywords : string -> list Row -> Py.Result unit.

(** The loop filling [embeddings_for_state]. *)
Definition embeddings_for (raw_keywords : list RawKeyword.t)
  : list (string * list Q) :=
  fold_left
    (fun embeddings_for_state kw =>
       PyText.dict_set embeddings_for_state (RawKeyword.keyword kw)
                       (_generate_vector (RawKeyword.keyword kw)))
    raw_keywords [].

Definition rows_for (raw_keywords : list RawKeyword.t) : list Row :=
  map (fun kw =>
         mkRow (RawKeyword.keyword kw)
               (_generate_vector (RawKeyword.keyword kw))
               (RawKeyword.avg_monthly_searches kw)
               (RawKeyword.competition kw))
      raw_keywords.

(** [__call__(state)] *)
Definition __call__ (state : GlobalState.t) : Py.Result Patch.t :=
  match GlobalState.raw_keywords state with
  | None | Some [] =>
      Py.Ok [Patch.core
               (Update.error_log
                  (GlobalState.error_log state ++ ["No keywords to vectorize"]))]
  | Some raw_keywords =>
      _ <- upsert_keywords (GlobalState.job_id state) (rows_for raw_keywords) ;;
      Py.Ok [Patch.embeddings (embeddings_for raw_keywords)]
  end.

End Node.
End VectorManager.

(* ================================================================== *)
(** * Enrichment node, entry and exit
      ([src/agents/openai_enrichment.py], lines 27-33 and 164) *)
(* ================================================================== *)

Module OpenAIEnrichmentAgent.

(** [x.opportunity_score or 0] *)
Definition score_or_zero (kw : RawKeyword.t) : Q :=
  match RawKeyword.opportunity_score kw with
  | Some v => v
  | None => 0
  end.

(** The single batch: the twenty best keywords by opportunity score. *)
Definition top_keywords (raw_keywords : list RawKeyword.t)
  : list RawKeyword.t :=
  firstn 20 (Py.sorted_desc score_or_zero Py.leb raw_keywords).

Section Node.
(** What the loop over the batch leaves in [enriched_keywords_list]: the
    parsed answer of the model, or the fallback entries the handlers put in
    its place.  Every exception raised in the loop is handled there. *)
Variable enrich_batch : list RawKeyword.t -> list EnrichedKeyword.t.

(** [__call__(state)] *)
Definition __call__ (state : GlobalState.t) : Patch.t :=
  match GlobalState.raw_keywords state with
  | None | Some [] => [Patch.enriched_keywords []]
  | Some raw_keywords =>
      [Patch.enriched_keywords (enrich_batch (top_keywords raw_keywords))]
  end.

End Node.
End OpenAIEnrichmentAgent.

(* ================================================================== *)
(** * The graph from [fetch_keywords] to the end ([src/workflow.py]) *)
(* ================================================================== *)

Module Pipeline.
Local Open Scope string_scope.

Section Graph.
(** The collaborators of the nodes: the keyword source, an exception escaping
    the keyword stage, the enrichment result, the encoder, the vector store,
    the clusterer, set iteration and group naming. *)
Variable fetch_keyword_ideas : list string -> Py.Result (list RawKeyword.t).
Variable raised : option string.
Variable enrich_batch : list RawKeyword.t -> list EnrichedKeyword.t.
Variable _generate_vector : string -> list Q.
Variable upsert_keywords : string -> list VectorManager.Row -> Py.Result unit.
Variable fit_predict : list (list Q) -> ClusteringAgent.Fit.
Variable set_iter : list Z -> list Z.
Variable _generate_group_name : list string -> string.

(** [WorkflowBuilder._fetch_keywords(state)] *)
Definition _fetch_keywords (state : GlobalState.t) : Update.t :=
  match GlobalState.seed_keywords state with
  | None | Some [] =>
      [Update.error_log
         (GlobalState.error_log state
            ++ ["No seed keywords were generated to fetch."])]
  | Some seed_keywords =>
      match fetch_keyword_ideas seed_keywords with
      | Py.Ok raw_keywords => [Update.raw_keywords raw_keywords]
      | Py.Raise e =>
          [Update.error_log
             (GlobalState.error_log state ++ ["Keyword fetch error: " ++ e])]
      end
  end.

(** The four nodes before clustering, each merged in turn
    ([fetch_keywords -> process_keywords -> enrich_keywords ->
    manage_vectors]). *)
Definition before_clustering (state : GlobalState.t)
  : Py.Result GlobalState.t :=
  let state := Update.apply state (_fetch_keywords state) in
  let state := Update.apply state (KeywordProcessor.__call__ raised state) in
  let state :=
    Patch.apply state (OpenAIEnrichmentAgent.__call__ enrich_batch state) in
  patch <- VectorManager.__call__ _generate_vector upsert_keywords state ;;
  Py.Ok (Patch.apply state patch).

(** The whole tail: the clustering cycle under its step budget, then
    [generate_campaigns].  [None]: the budget ran out in the cycle. *)
Definition run_from_fetch (budget : nat) (state : GlobalState.t)
  : Py.Result (option GlobalState.t) :=
  state <- before_clustering state ;;
  looped <- WorkflowBuilder.clustering_loop fit_predict set_iter
              _generate_group_name budget 0 state ;;
  match looped with
  | None => Py.Ok None
  | Some (state, _) =>
      Py.Ok (Some (Update.apply state (CampaignDesignerAgent.__call__ state)))
  end.

End Graph.
End Pipeline.

(* ================================================================== *)
(** * Reporting a finished run ([src/workflow.py], [execute_workflow];
      [src/workflow_manager.py]) *)
(* ================================================================== *)

Module WorkflowManager.
Local Open Scope string_scope.

(** What [WorkflowBuilder.execute_workflow] returns. *)
Inductive BuilderResult : Type :=
| builder_success (job_id : string) (results : option Report.t)
                  (errors : list string)
| builder_error (error : string) (job_id : string).

(** The result the frontend gets; a section that the report lacks is [None],
    standing for the default dict with an empty list. *)
Record Formatted : Type := mkFormatted {
  search_campaign : option Report.Search;
  shopping_campaign : option Report.Shopping;
  pmax_campaign : option Report.PMax
}.

Inductive Response : Type :=
| success (results : Formatted)
| failed (error : string).

(** [WorkflowBuilder.execute_workflow], given how invoking the graph ended
    for the job. *)
Definition builder_execute_workflow (job_id : string)
           (invoked : Py.Result GlobalState.t) : BuilderResult :=
  match invoked with
  | Py.Ok final_state =>
      builder_success job_id (GlobalState.final_report final_state)
                      (GlobalState.error_log final_state)
  | Py.Raise e => builder_error e job_id
  end.

Definition format_results (final_report : Report.t) : Formatted :=
  match final_report with
  | Report.SummaryOnly _ => mkFormatted None None None
  | Report.Full _ s sh p _ => mkFormatted (Some s) (Some sh) (Some p)
  end.

(** [WorkflowManager.execute_workflow], given the builder's result. *)
Definition execute_workflow (result_dict : BuilderResult) : Response :=
  match result_dict with
  | builder_error error _ => failed error
  | builder_success _ None errors =>
      let error_msg := "Workflow finished but produced no report." in
      failed (match errors with
              | [] => error_msg
              | _ => error_msg ++ " Errors: " ++ PyText.join "; " errors
              end)
  | builder_success _ (Some final_report) _ =>
      success (format_results final_report)
  end.

End WorkflowManager.

(* ================================================================== *)
(** * Further notions used to state properties *)
(* ================================================================== *)

Module Order.

(** A list runs from the largest key to the smallest. *)
Definition descending {A K} (key : A -> K) (le : K -> K -> bool)
           (l : list A) : Prop :=
  StronglySorted (fun a b => le (key b) (key a) = true) l.

(** [kept] holds the best of [kept ++ cut]: nothing cut has a larger key
    than something kept. *)
Definition best_first {A K} (key : A -> K) (le : K -> K -> bool)
           (kept cut : list A) : Prop :=
  forall a b, In a kept -> In b cut -> le (key b) (key a) = true.

(** [x.opportunity_score or 0.0], the sort key of the keyword stage. *)
Definition score_of (kw : RawKeyword.t) : Q :=
  match RawKeyword.opportunity_score kw with
  | Some v => v
  | None => 0.0%Q
  end.

End Order.

Module Frame.

(** A node left the request, the error log, the keyword lists and the
    embeddings as they were. *)
Definition untouched (s s' : GlobalState.t) : Prop :=
  GlobalState.initial_request s' = GlobalState.initial_request s
  /\ GlobalState.error_log s' = GlobalState.error_log s
  /\ GlobalState.raw_keywords s' = GlobalState.raw_keywords s
  /\ GlobalState.enriched_keywords s' = GlobalState.enriched_keywords s
  /\ GlobalState.embeddings s' = GlobalState.embeddings s.

End Frame.

Module Lookup.

(** The keyword is present in both keyword lists of the state, which is when
    the campaign stage has the data to bid on it. *)
Definition known (state : GlobalState.t) (keyword_id : string) : bool :=
  existsb (fun e => String.eqb (EnrichedKeyword.keyword_id e) keyword_id)
          (CampaignDesignerAgent.or_empty
             (GlobalState.enriched_keywords state))
  && existsb (fun r => String.eqb (RawKeyword.keyword r) keyword_id)
             (CampaignDesignerAgent.or_empty
                (GlobalState.raw_keywords state)).

(** [bool(l)] of a list. *)
Definition nonempty {A} (l : list A) : bool :=
  match l with
  | [] => false
  | _ => true
  end.

(** What the search report shows of a keyword, and what a bid holds of
    it: the keyword and its match types. *)
Definition shown (k : Report.SearchKeyword) : string * list string :=
  (Report.sk_keyword k, Report.sk_match_types k).

Definition bid_shown (b : Bid.t) : string * list string :=
  (Bid.keyword b, Bid.match_types b).

End Lookup.

(* ================================================================== *)
(** * Further concrete inputs *)
(* ================================================================== *)

Module Cases.
Local Open Scope Q_scope.
Local Open Scope string_scope.

(** Two keywords that pass the filter, one that does not (too few
    searches), and one that passes the filter but scores below 0.15. *)
Definition rare : RawKeyword.t :=
  RawKeyword.mk "rare orchid" 10 1 1.0 None None.

Definition crowded : RawKeyword.t :=
  RawKeyword.mk "red socks" 60 5 1.0 None None.

Definition two_keywords : GlobalState.t :=
  Scenario.with_raw (Some [Scenario.cheap_shoes; Scenario.buy_shoes]).

Definition scored (kw : RawKeyword.t) : RawKeyword.t :=
  RawKeyword.set_opportunity_score
    kw (KeywordProcessor._calculate_opportunity_score kw).

Definition two_scored : list RawKeyword.t :=
  [scored Scenario.buy_shoes; scored Scenario.cheap_shoes].

Definition nothing_survives : GlobalState.t :=
  Scenario.with_raw (Some [rare; crowded]).

(** A run with two ad groups: one whose keyword is known to both keyword
    lists, one whose keyword has no enrichment. *)
Definition orphan_group : AdGroup.t :=
  AdGroup.mk "group_1" "Hats" ["blue hat"] [1; 0] 0.9.

Definition two_groups : GlobalState.t :=
  Scenario.campaign_state (Some 1000) None
                          (Some [Scenario.shoes_group; orphan_group]).

(** An encoder into two dimensions, a vector store that accepts every
    batch, one that is down, and a clusterer that puts all rows into one
    cluster. *)
Definition encoder (keyword : string) : list Q :=
  [inject_Z (Z.of_nat (String.length keyword)); 1].

Definition store_ok (_ : string) (_ : list VectorManager.Row)
  : Py.Result unit :=
  Py.Ok tt.

Definition store_down (_ : string) (_ : list VectorManager.Row)
  : Py.Result unit :=
  Py.Raise "connection refused".

Definition fit_one_cluster (rows : list (list Q)) : ClusteringAgent.Fit :=
  ClusteringAgent.Fitted (repeat 0%Z (List.length rows)) None.

(** A run that starts without seed keywords, and a keyword source that is
    never reached. *)
Definition no_seeds : GlobalState.t := Scenario.with_raw None.

Definition source_down (_ : list string) : Py.Result (list RawKeyword.t) :=
  Py.Raise "quota exceeded".

Definition no_enrichment (_ : list RawKeyword.t) : list EnrichedKeyword.t :=
  [].

(** A run with one seed keyword whose source answers with two keywords. *)
Definition seeded : GlobalState.t :=
  GlobalState.mk (Scenario.request None None) "job_1" [] 0 None None
                 (Some ["shoes"]) None None [] None None None None None None.

Definition source_two (_ : list string) : Py.Result (list RawKeyword.t) :=
  Py.Ok [Scenario.cheap_shoes; Scenario.buy_shoes].

(** A fresh run that embedded a single keyword. *)
Definition one_embedding : GlobalState.t :=
  Scenario.context (Scenario.request None None) 0 None None
                   [("red shoes", [0; 1])] None.

End Cases.

(* ================================================================== *)
(** * Properties *)
(* ================================================================== *)

(** ** Comparisons, [min] and [round] *)

Section Arithmetic.
Local Open Scope Q_scope.

Lemma ltb_true_iff (a b : Q) : Py.ltb a b = true <-> a < b.
Proof.
  unfold Py.ltb. rewrite negb_true_iff.
  split; intro H.
  - apply Qnot_le_lt. intro Hle. apply Qle_bool_iff in Hle. congruence.
  - destruct (Qle_bool b a) eqn:E; [|reflexivity].
    apply Qle_bool_iff in E. exfalso. apply (Qlt_not_le _ _ H E).
Qed.

Lemma ltb_false_iff (a b : Q) : Py.ltb a b = false <-> b <= a.
Proof.
  unfold Py.ltb. rewrite negb_false_iff. apply Qle_bool_iff.
Qed.

Lemma min_le_l (a b : Q) : Py.min a b <= a.
Proof.
  unfold Py.min. destruct (Py.ltb b a) eqn:E.
  - apply ltb_true_iff in E. lra.
  - lra.
Qed.

Lemma min_le_r (a b : Q) : Py.min a b <= b.
Proof.
  unfold Py.min. destruct (Py.ltb b a) eqn:E.
  - lra.
  - apply ltb_false_iff in E. lra.
Qed.

Lemma min_glb (a b c : Q) : c <= a -> c <= b -> c <= Py.min a b.
Proof. intros Ha Hb. unfold Py.min. destruct (Py.ltb b a); assumption. Qed.

Lemma min_mono_l (a a' b : Q) : a <= a' -> Py.min a b <= Py.min a' b.
Proof.
  intro H. apply min_glb.
  - pose proof (min_le_l a b). lra.
  - apply min_le_r.
Qed.




End Arithmetic.

(** ** Lists, enumeration and lookups *)

Section ListFacts.
Context {A B : Type}.

Lemma mapM_ok_map (f : A -> Py.Result B) (g : A -> B) (l : list A) :
  (forall x, In x l -> f x = Py.Ok (g x)) ->
  Py.mapM f l = Py.Ok (map g l).
Proof.
  induction l as [|x l IH]; intro H; simpl; [reflexivity|].
  rewrite (H x (or_introl eq_refl)). simpl.
  rewrite IH by (intros y Hy; apply H; right; exact Hy).
  reflexivity.
Qed.

Lemma index_ok (l : list A) (i : nat) (d : A) :
  (i < List.length l)%nat -> Py.index l i = Py.Ok (nth i l d).
Proof.
  intro H. unfold Py.index.
  rewrite (nth_error_nth' l d H). reflexivity.
Qed.

Lemma combine_seq_fst (l : list A) (start : nat) :
  map fst (combine (seq start (List.length l)) l) = seq start (List.length l).
Proof.
  revert start. induction l as [|x l IH]; intro start; simpl; [reflexivity|].
  rewrite IH. reflexivity.
Qed.

Lemma combine_seq_snd (l : list A) (start : nat) :
  map snd (combine (seq start (List.length l)) l) = l.
Proof.
  revert start. induction l as [|x l IH]; intro start; simpl; [reflexivity|].
  rewrite IH. reflexivity.
Qed.

Lemma enumerate_fst (l : list A) :
  map fst (Py.enumerate l) = seq 0 (List.length l).
Proof. apply combine_seq_fst. Qed.

Lemma enumerate_snd (l : list A) : map snd (Py.enumerate l) = l.
Proof. apply combine_seq_snd. Qed.

Lemma enumerate_length (l : list A) :
  List.length (Py.enumerate l) = List.length l.
Proof. rewrite <- (length_map fst), enumerate_fst. apply length_seq. Qed.

Lemma enumerate_index_lt (l : list A) (i : nat) (x : A) :
  In (i, x) (Py.enumerate l) -> (i < List.length l)%nat.
Proof.
  intro H. apply (in_map fst) in H. rewrite enumerate_fst in H.
  apply in_seq in H. simpl in H. lia.
Qed.

Lemma map_nth_seq (l : list A) (d : A) :
  map (fun i => nth i l d) (seq 0 (List.length l)) = l.
Proof.
  induction l as [|x l IH]; simpl; [reflexivity|].
  rewrite <- seq_shift, map_map. simpl. rewrite IH. reflexivity.
Qed.

Lemma filter_all (p : A -> bool) (l : list A) :
  (forall x, In x l -> p x = true) -> filter p l = l.
Proof.
  intro H. induction l as [|x l IH]; simpl; [reflexivity|].
  rewrite (H x (or_introl eq_refl)), IH; [reflexivity|].
  intros y Hy. apply H. right. exact Hy.
Qed.

Lemma filter_length_le (p q : A -> bool) (l : list A) :
  (forall x, p x = true -> q x = true) ->
  (List.length (filter p l) <= List.length (filter q l))%nat.
Proof.
  intro H. induction l as [|x l IH]; simpl; [lia|].
  destruct (p x) eqn:Ep.
  - rewrite (H x Ep). simpl. lia.
  - destruct (q x); simpl; lia.
Qed.


End ListFacts.

(** Splitting a list into the blocks of elements with equal key, one block
    per key of a duplicate-free key list, rearranges the list. *)
Section Blocks.
Context {A : Type} (f : A -> Z).

Lemma blocks_without (x : A) (l : list A) (cs : list Z) :
  ~ In (f x) cs ->
  List.concat (map (Aux.block f (x :: l)) cs)
  = List.concat (map (Aux.block f l) cs).
Proof.
  induction cs as [|c cs IH]; intro Hn; simpl; [reflexivity|].
  destruct (Z.eqb_spec (f x) c) as [E|E].
  - exfalso. apply Hn. left. symmetry. exact E.
  - rewrite IH; [reflexivity|]. intro H. apply Hn. right. exact H.
Qed.

Lemma blocks_with (x : A) (l : list A) (cs : list Z) :
  NoDup cs -> In (f x) cs ->
  Permutation (List.concat (map (Aux.block f (x :: l)) cs))
              (x :: List.concat (map (Aux.block f l) cs)).
Proof.
  induction cs as [|c cs IH]; intros Hnd Hin; [contradiction|].
  inversion Hnd as [|? ? Hc Hnd']; subst.
  simpl. destruct (Z.eqb_spec (f x) c) as [E|E].
  - subst c. rewrite (blocks_without x l cs Hc). simpl. reflexivity.
  - destruct Hin as [Hin|Hin]; [congruence|].
    rewrite (IH Hnd' Hin). symmetry. apply Permutation_middle.
Qed.

Lemma blocks_permutation (l : list A) (cs : list Z) :
  NoDup cs ->
  (forall x, In x l -> In (f x) cs) ->
  Permutation (List.concat (map (Aux.block f l) cs)) l.
Proof.
  intros Hnd. induction l as [|x l IH]; intro Hall.
  - unfold Aux.block. simpl. clear.
    induction cs; simpl; [constructor|assumption].
  - rewrite (blocks_with x l cs Hnd (Hall x (or_introl eq_refl))).
    constructor. apply IH. intros y Hy. apply Hall. right. exact Hy.
Qed.

End Blocks.

(** ** Keyword scoring *)

Section Scoring.
Local Open Scope Q_scope.
Local Open Scope string_scope.
Import KeywordProcessor.

Lemma prefix_lower (a b : string) :
  String.prefix a b = true -> String.prefix (Py.lower a) (Py.lower b) = true.
Proof.
  revert b. induction a as [|c a IH]; intros [|d b]; simpl; try easy.
  destruct (ascii_dec c d) as [->|]; [|discriminate].
  intro H.
  destruct (ascii_dec (Py.lower_ascii d) (Py.lower_ascii d)); [auto|congruence].
Qed.

Lemma contains_lower (sub s : string) :
  Py.contains sub s = true -> Py.contains (Py.lower sub) (Py.lower s) = true.
Proof.
  induction s as [|c s IH].
  - simpl. rewrite !orb_false_r. intro H.
    apply (prefix_lower sub EmptyString H).
  - cbn [Py.contains Py.lower]. rewrite !orb_true_iff.
    intros [H|H].
    + left. apply (prefix_lower sub (String c s) H).
    + right. auto.
Qed.

(** A term that contains "buy" gets the commercial boost. *)
Lemma buy_is_commercial (kw : RawKeyword.t) :
  Py.contains "buy" (RawKeyword.keyword kw) = true ->
  has_commercial_intent kw = true.
Proof.
  intro H. unfold has_commercial_intent, Py.any, commercial_modifiers.
  cbn [existsb]. apply contains_lower in H.
  change (Py.lower "buy") with "buy" in H.
  rewrite H. reflexivity.
Qed.

Lemma search_volume_norm_range (kw : RawKeyword.t) :
  0.2 <= search_volume_norm kw <= 1.
Proof.
  unfold search_volume_norm.
  repeat match goal with |- context [if ?c then _ else _] => destruct c end;
    lra.
Qed.

Lemma competition_score_nonneg (kw : RawKeyword.t) :
  0 <= competition_score kw.
Proof.
  unfold competition_score.
  pose proof (min_le_r (RawKeyword.competition kw / 5.0) 1.0). lra.
Qed.

Lemma bid_norm_nonneg (kw : RawKeyword.t) :
  0 <= RawKeyword.suggested_bid kw -> 0 <= bid_norm kw.
Proof.
  intro H. unfold bid_norm. apply min_glb; [|lra].
  unfold Qdiv. apply Qmult_le_0_compat; [assumption|].
  vm_compute. discriminate.
Qed.

Lemma score_unfold (kw : RawKeyword.t) :
  _calculate_opportunity_score kw
  = Py.min (if has_commercial_intent kw
            then Spec.weighted kw * 1.2 else Spec.weighted kw) 1.0.
Proof. reflexivity. Qed.

Lemma weighted_nonneg (kw : RawKeyword.t) :
  0 <= RawKeyword.suggested_bid kw -> 0 <= Spec.weighted kw.
Proof.
  intro H. unfold Spec.weighted.
  pose proof (search_volume_norm_range kw).
  pose proof (competition_score_nonneg kw).
  pose proof (bid_norm_nonneg kw H). lra.
Qed.

Lemma weighted_same (kw kw' : RawKeyword.t) :
  RawKeyword.avg_monthly_searches kw' = RawKeyword.avg_monthly_searches kw ->
  RawKeyword.competition kw' = RawKeyword.competition kw ->
  RawKeyword.suggested_bid kw' = RawKeyword.suggested_bid kw ->
  Spec.weighted kw' = Spec.weighted kw.
Proof.
  intros Hs Hc Hb.
  unfold Spec.weighted, search_volume_norm, competition_score, bid_norm.
  rewrite Hs, Hc, Hb. reflexivity.
Qed.

(** C7.  For a keyword with non-negative searches, competition and bid the
    opportunity score lies between 0 and 1; and if its term contains "buy",
    its score is at least the score of a keyword whose term contains no
    commercial-intent token and whose other fields are the same. *)
Theorem opportunity_score_range_and_buy (kw : RawKeyword.t) :
  (0 <= RawKeyword.avg_monthly_searches kw)%Z ->
  0 <= RawKeyword.competition kw ->
  0 <= RawKeyword.suggested_bid kw ->
  (0 <= _calculate_opportunity_score kw <= 1)
  /\ (Py.contains "buy" (RawKeyword.keyword kw) = true ->
      forall kw' : RawKeyword.t,
        (forall token, In token commercial_modifiers ->
                       Py.contains token (RawKeyword.keyword kw') = false) ->
        RawKeyword.avg_monthly_searches kw'
        = RawKeyword.avg_monthly_searches kw ->
        RawKeyword.competition kw' = RawKeyword.competition kw ->
        RawKeyword.suggested_bid kw' = RawKeyword.suggested_bid kw ->
        RawKeyword.search_intent kw' = RawKeyword.search_intent kw ->
        RawKeyword.opportunity_score kw' = RawKeyword.opportunity_score kw ->
        _calculate_opportunity_score kw' <= _calculate_opportunity_score kw).
Proof.
  intros _ _ Hbid.
  pose proof (weighted_nonneg kw Hbid) as Hw.
  split.
  - rewrite score_unfold. split.
    + apply min_glb; [|lra]. destruct (has_commercial_intent kw); lra.
    + pose proof (min_le_r (if has_commercial_intent kw
                            then Spec.weighted kw * 1.2
                            else Spec.weighted kw) 1.0).
      lra.
  - intros Hbuy kw' _ Hs Hc Hb _ _.
    rewrite !score_unfold, (buy_is_commercial kw Hbuy).
    rewrite (weighted_same kw kw' Hs Hc Hb).
    apply min_mono_l. destruct (has_commercial_intent kw'); lra.
Qed.

Lemma opportunity_score_range_and_buy_witness :
  (0 <= _calculate_opportunity_score Scenario.buy_shoes <= 1)
  /\ _calculate_opportunity_score Scenario.cheap_shoes
     <= _calculate_opportunity_score Scenario.buy_shoes.
Proof.
  assert (Hs : (0 <= RawKeyword.avg_monthly_searches Scenario.buy_shoes)%Z)
    by (simpl; lia).
  assert (Hc : 0 <= RawKeyword.competition Scenario.buy_shoes)
    by (vm_compute; discriminate).
  assert (Hb : 0 <= RawKeyword.suggested_bid Scenario.buy_shoes)
    by (vm_compute; discriminate).
  destruct (opportunity_score_range_and_buy Scenario.buy_shoes Hs Hc Hb)
    as [Hrange Hbuy].
  split; [exact Hrange|].
  apply (Hbuy eq_refl Scenario.cheap_shoes); try reflexivity.
  intros token Htoken. unfold commercial_modifiers in Htoken.
  repeat (destruct Htoken as [<-|Htoken]; [reflexivity|]).
  destruct Htoken.
Defined.

(** C6, as the code computes it.  For "cheap shoes" with 80 searches, bid
    1.0 and competition 2 the volume component is 0.2, the competition
    component 0.6, the bid component 0.01, no commercial token matches, and
    the opportunity score is 0.4*0.2 + 0.3*0.6 + 0.3*0.01 = 0.263. *)
Theorem cheap_shoes_score :
  search_volume_norm Scenario.cheap_shoes == 0.2
  /\ competition_score Scenario.cheap_shoes == 0.6
  /\ bid_norm Scenario.cheap_shoes == 0.01
  /\ has_commercial_intent Scenario.cheap_shoes = false
  /\ _calculate_opportunity_score Scenario.cheap_shoes == 0.263.
Proof. repeat split; reflexivity. Qed.

(** C6, as the specification words it, fails: the score is 0.06 away from
    0.203, so it does not round to 0.203. *)
Lemma cheap_shoes_score_is_not_0203 :
  Qabs (_calculate_opportunity_score Scenario.cheap_shoes - 0.203) == 0.06
  /\ ~ Qabs (_calculate_opportunity_score Scenario.cheap_shoes - 0.203)
       <= 0.0005.
Proof.
  split.
  - reflexivity.
  - intro H. vm_compute in H. apply H. reflexivity.
Qed.

End Scoring.

(** ** Keyword stage: what a failure writes *)

Section KeywordStage.
Local Open Scope string_scope.
Import KeywordProcessor.

Lemma apply_error_log (state : GlobalState.t) (log : list string) :
  GlobalState.error_log (Update.apply state [Update.error_log log]) = log
  /\ Spec.same_but_error_log state (Update.apply state [Update.error_log log]).
Proof.
  destruct state. unfold Spec.same_but_error_log. simpl.
  repeat split; reflexivity.
Qed.

Lemma call_on_failure (raised : option string) (state : GlobalState.t) :
  Spec.stage_failed raised state ->
  exists msg, __call__ raised state = handle_error msg state.
Proof.
  unfold Spec.stage_failed, __call__.
  destruct raised as [e|].
  - intros _. exists e. reflexivity.
  - intros [H|[H|H]]; [congruence| |];
      rewrite H; exists "No keywords to process"; reflexivity.
Qed.

(** C10.  When the keyword stage fails (an exception escaped its body, or
    the raw-keywords slot is missing or empty), the update it returns has the
    single key [error_log], holding the old log with exactly one entry
    appended; merged into the state it leaves every other slot, the
    raw-keywords slot included, as it was. *)
Theorem keyword_stage_failure_frame
        (raised : option string) (state : GlobalState.t) :
  Spec.stage_failed raised state ->
  exists msg,
    let update := __call__ raised state in
    let state' := Update.apply state update in
    update = [Update.error_log (GlobalState.error_log state ++ [msg])]
    /\ Update.keys update = ["error_log"]
    /\ GlobalState.error_log state' = (GlobalState.error_log state ++ [msg])%list
    /\ List.length (GlobalState.error_log state')
       = S (List.length (GlobalState.error_log state))
    /\ Spec.same_but_error_log state state'.
Proof.
  intro Hfail. destruct (call_on_failure raised state Hfail) as [msg Hcall].
  exists msg. cbv zeta. rewrite Hcall. unfold handle_error.
  destruct (apply_error_log state (GlobalState.error_log state ++ [msg]))
    as [Hlog Hframe].
  split; [reflexivity|]. split; [reflexivity|]. split; [exact Hlog|].
  split; [|exact Hframe].
  rewrite Hlog, length_app. simpl. lia.
Qed.

Lemma keyword_stage_failure_frame_witness :
  exists msg,
    Update.apply (Scenario.with_raw None)
                 (__call__ None (Scenario.with_raw None))
    = GlobalState.mk (Scenario.request None None) "job_1" [msg] 0 None None
                     None None None [] None None None None None None.
Proof.
  assert (Hfail : Spec.stage_failed None (Scenario.with_raw None))
    by (right; left; reflexivity).
  destruct (keyword_stage_failure_frame None (Scenario.with_raw None) Hfail)
    as [msg [Hupd _]].
  exists msg. rewrite Hupd. reflexivity.
Defined.

(** C4, as the specification words it, fails: on an empty keyword list the
    stage does record an error. *)
Lemma empty_input_is_logged :
  let state := Scenario.with_raw (Some []) in
  let state' := Update.apply state (__call__ None state) in
  GlobalState.error_log state = []
  /\ GlobalState.error_log state' = ["No keywords to process"]
  /\ GlobalState.error_log state' <> GlobalState.error_log state.
Proof. repeat split. discriminate. Qed.

(** C4, as the code behaves.  Applied to an empty keyword list, the stage
    writes no keyword list (the slot stays empty) and appends the one entry
    "No keywords to process" to the error log. *)
Theorem empty_input_appends_one_error (state : GlobalState.t) :
  GlobalState.raw_keywords state = Some [] ->
  let update := __call__ None state in
  let state' := Update.apply state update in
  update
  = [Update.error_log
       (GlobalState.error_log state ++ ["No keywords to process"])]
  /\ GlobalState.raw_keywords state' = Some []
  /\ GlobalState.error_log state'
     = (GlobalState.error_log state ++ ["No keywords to process"])%list.
Proof.
  intro Hraw. cbv zeta. unfold __call__. rewrite Hraw. unfold handle_error.
  destruct (apply_error_log state
              (GlobalState.error_log state ++ ["No keywords to process"]))
    as [Hlog Hframe].
  split; [reflexivity|]. split; [|exact Hlog].
  destruct Hframe as (_ & _ & _ & _ & _ & _ & Hr & _). rewrite Hr. exact Hraw.
Qed.

Lemma empty_input_appends_one_error_witness :
  __call__ None (Scenario.with_raw (Some []))
  = [Update.error_log ["No keywords to process"]].
Proof.
  destruct (empty_input_appends_one_error (Scenario.with_raw (Some [])) eq_refl)
    as [Hupd _].
  exact Hupd.
Defined.

End KeywordStage.

(** ** Budget split and bids *)

Section Campaigns.
Local Open Scope Q_scope.
Local Open Scope string_scope.
Import CampaignDesignerAgent.





Lemma call_without_groups (state : GlobalState.t) :
  GlobalState.ad_groups state = None \/ GlobalState.ad_groups state = Some [] ->
  __call__ state
  = [Update.campaigns [];
     Update.final_report (Report.SummaryOnly "No ad groups to process.")].
Proof. intros [H|H]; unfold __call__; rewrite H; reflexivity. Qed.






(** C5, as the specification words it, fails: when campaign generation runs
    without ad groups, the final report is the summary alone and holds no
    performance-max report, hence no themes. *)
Lemma no_ad_groups_no_pmax_report :
  exists report,
    GlobalState.final_report
      (Update.apply Scenario.no_groups (__call__ Scenario.no_groups))
    = Some report
    /\ report = Report.SummaryOnly "No ad groups to process."
    /\ Report.get_pmax_campaign report = None.
Proof. eexists. repeat split. Qed.

(** C5, as the code behaves.  Without ad groups the designer returns no
    campaigns and a report that is only the summary "No ad groups to
    process."; the performance-max formatter, applied to such a state, does
    produce exactly the two default themes. *)
Theorem no_ad_groups_report (state : GlobalState.t) :
  GlobalState.ad_groups state = None \/ GlobalState.ad_groups state = Some [] ->
  __call__ state
  = [Update.campaigns [];
     Update.final_report (Report.SummaryOnly "No ad groups to process.")]
  /\ (forall campaign,
        Report.themes (_format_pmax_campaign campaign state) = default_themes)
  /\ List.length default_themes = 2%nat.
Proof.
  intro H. split; [exact (call_without_groups state H)|].
  split; [|reflexivity].
  intro campaign. unfold _format_pmax_campaign.
  destruct H as [H|H]; rewrite H; reflexivity.
Qed.

Lemma no_ad_groups_report_witness :
  __call__ Scenario.no_groups
  = [Update.campaigns [];
     Update.final_report (Report.SummaryOnly "No ad groups to process.")]
  /\ List.length
       (Report.themes
          (_format_pmax_campaign
             (_create_pmax_campaign Scenario.no_groups 200)
             Scenario.no_groups))
     = 2%nat.
Proof.
  destruct (no_ad_groups_report Scenario.no_groups (or_introl eq_refl))
    as (Hcall & Hthemes & Hlen).
  split; [exact Hcall|].
  rewrite Hthemes. exact Hlen.
Defined.

End Campaigns.

(** ** Quality gate *)

Section Gate.
Local Open Scope Q_scope.
Import WorkflowBuilder.

Lemma poor_iff (g : AdGroup.t) : poor g = true <-> Spec.poor_group g.
Proof.
  unfold poor, Spec.poor_group.
  rewrite orb_true_iff, Nat.ltb_lt, ltb_true_iff. reflexivity.
Qed.

Lemma gate_no_embeddings (state : GlobalState.t) :
  GlobalState.embeddings state = [] ->
  _should_recluster state = continue_processing.
Proof. intro H. unfold _should_recluster. rewrite H. reflexivity. Qed.

Lemma gate_no_groups (state : GlobalState.t) :
  GlobalState.embeddings state <> [] ->
  Spec.groups_of state = [] ->
  _should_recluster state
  = if (GlobalState.clustering_attempts state >=? 3)%Z
    then continue_processing else recluster.
Proof.
  intros He Hg. unfold _should_recluster. fold (Spec.groups_of state).
  rewrite Hg. destruct (GlobalState.embeddings state); [congruence|reflexivity].
Qed.

Lemma gate_with_groups (state : GlobalState.t) :
  GlobalState.embeddings state <> [] ->
  Spec.groups_of state <> [] ->
  _should_recluster state
  = if Py.ltb (Spec.size (Spec.groups_of state) * 0.3)
              (Spec.count (Spec.poor_count (Spec.groups_of state)))
    then if (GlobalState.clustering_attempts state >=? 2)%Z
         then continue_processing else recluster
    else continue_processing.
Proof.
  intros He Hg. unfold _should_recluster. fold (Spec.groups_of state).
  destruct (GlobalState.embeddings state); [congruence|].
  destruct (Spec.groups_of state) eqn:E; [congruence|]. reflexivity.
Qed.

Lemma low_score_le_poor (groups : list AdGroup.t) :
  (Spec.low_score_count groups <= Spec.poor_count groups)%nat.
Proof.
  apply filter_length_le. intros g H. unfold poor. rewrite H.
  apply orb_true_r.
Qed.

(** C2.  The gate answers [continue] when there are no embeddings; with
    embeddings and no ad group it answers [recluster] exactly when fewer
    than 3 attempts are counted; otherwise, a group being poor when it has
    fewer than 3 members or a score below 0.7, it answers [recluster] exactly
    when the poor groups are more than 0.3 times all groups and fewer than 2
    attempts are counted, else [continue].  Five groups of which two score
    below 0.7 give [recluster] at 0 attempts and [continue] at 2. *)
Theorem quality_gate_decision (state : GlobalState.t) :
  let groups := Spec.groups_of state in
  let attempts := GlobalState.clustering_attempts state in
  let gate := _should_recluster state in
  (forall g, poor g = true <-> Spec.poor_group g)
  /\ (GlobalState.embeddings state = [] -> gate = continue_processing)
  /\ (GlobalState.embeddings state <> [] -> groups = [] ->
      (gate = recluster <-> (attempts < 3)%Z)
      /\ (gate = continue_processing <-> (3 <= attempts)%Z))
  /\ (GlobalState.embeddings state <> [] -> groups <> [] ->
      (gate = recluster <->
       0.3 * Spec.size groups < Spec.count (Spec.poor_count groups)
       /\ (attempts < 2)%Z)
      /\ (gate = continue_processing <->
          ~ (0.3 * Spec.size groups < Spec.count (Spec.poor_count groups)
             /\ (attempts < 2)%Z)))
  /\ (GlobalState.embeddings state <> [] ->
      List.length groups = 5%nat ->
      Spec.low_score_count groups = 2%nat ->
      (attempts = 0%Z -> gate = recluster)
      /\ (attempts = 2%Z -> gate = continue_processing)).
Proof.
  intros groups attempts gate.
  split; [exact poor_iff|].
  split; [exact (gate_no_embeddings state)|].
  split; [|split].
  - intros He Hg. subst gate. rewrite (gate_no_groups state He Hg).
    fold attempts. destruct (Z.geb_spec attempts 3) as [Hge|Hlt];
      split; split; intro H; try lia; try discriminate; reflexivity.
  - intros He Hg. subst gate. rewrite (gate_with_groups state He Hg).
    fold groups attempts.
    destruct (Py.ltb (Spec.size groups * 0.3)
                     (Spec.count (Spec.poor_count groups))) eqn:El.
    + apply ltb_true_iff in El.
      destruct (Z.geb_spec attempts 2) as [Hge|Hlt]; split; split; intro H;
        try discriminate; try reflexivity.
      * destruct H. lia.
      * intros [_ H']. lia.
      * split; [lra|lia].
      * exfalso. apply H. split; [lra|lia].
    + apply ltb_false_iff in El.
      split; split; intro H; try discriminate; try reflexivity.
      * destruct H. lra.
      * intros [H' _]. lra.
  - intros He Hlen Hlow.
    assert (Hg : groups <> []) by (intro E; rewrite E in Hlen; discriminate).
    subst gate. rewrite (gate_with_groups state He Hg). fold groups attempts.
    pose proof (low_score_le_poor groups) as Hle. rewrite Hlow in Hle.
    assert (El : Py.ltb (Spec.size groups * 0.3)
                        (Spec.count (Spec.poor_count groups)) = true).
    { apply ltb_true_iff. unfold Spec.size, Spec.count. rewrite Hlen.
      assert (H2 : inject_Z (Z.of_nat 2)
                   <= inject_Z (Z.of_nat (Spec.poor_count groups))).
      { rewrite <- Zle_Qle. lia. }
      change (inject_Z (Z.of_nat 5)) with (5 # 1).
      change (inject_Z (Z.of_nat 2)) with (2 # 1) in H2. lra. }
    rewrite El. split; intros ->; reflexivity.
Qed.

Lemma quality_gate_decision_witness :
  _should_recluster (Scenario.gate_state 0) = recluster
  /\ _should_recluster (Scenario.gate_state 2) = continue_processing.
Proof.
  split.
  - destruct (quality_gate_decision (Scenario.gate_state 0))
      as (_ & _ & _ & _ & H).
    apply H; [discriminate|reflexivity|reflexivity|reflexivity].
  - destruct (quality_gate_decision (Scenario.gate_state 2))
      as (_ & _ & _ & _ & H).
    apply H; [discriminate|reflexivity|reflexivity|reflexivity].
Defined.

End Gate.

(** ** Cluster builder: the groups partition the keyword ids *)

Section BuilderBranches.
Local Open Scope Q_scope.
Local Open Scope string_scope.
Import ClusteringAgent.

Variable _generate_group_name : list string -> string.

Lemma members_app (a b : list AdGroup.t) :
  Spec.members (a ++ b) = (Spec.members a ++ Spec.members b)%list.
Proof. unfold Spec.members. rewrite map_app, concat_app. reflexivity. Qed.

Lemma members_singletons {X} (g : X -> AdGroup.t) (k : X -> string)
      (l : list X) :
  (forall x, AdGroup.keywords (g x) = [k x]) ->
  Spec.members (map g l) = map k l.
Proof.
  intro H. unfold Spec.members. induction l as [|x l IH]; simpl; [reflexivity|].
  rewrite H, IH. reflexivity.
Qed.

Lemma members_In (groups : list AdGroup.t) (k : string) :
  In k (Spec.members groups)
  <-> exists g, In g groups /\ In k (AdGroup.keywords g).
Proof.
  unfold Spec.members. rewrite in_concat. split.
  - intros [l [Hl Hk]]. apply in_map_iff in Hl. destruct Hl as [g [<- Hg]].
    exists g. split; assumption.
  - intros [g [Hg Hk]]. exists (AdGroup.keywords g). split; [|exact Hk].
    apply in_map. exact Hg.
Qed.

Lemma where_eq_lt (cluster_labels : list Z) (c : Z) (i : nat) :
  In i (where_eq cluster_labels c) -> (i < List.length cluster_labels)%nat.
Proof.
  unfold where_eq. intro H. apply in_map_iff in H.
  destruct H as [[j x] [<- H]]. apply filter_In in H.
  exact (enumerate_index_lt _ _ _ (proj1 H)).
Qed.

(** Fewer than three embeddings. *)
Lemma simple_groups_members (embeddings : list (string * list Q)) :
  Spec.members (simple_groups embeddings) = map fst embeddings.
Proof.
  unfold simple_groups.
  rewrite (members_singletons _ (fun p => fst (snd p))).
  - rewrite <- (map_map snd fst), enumerate_snd. reflexivity.
  - intros [i [k v]]. reflexivity.
Qed.

(** The clusterer raised. *)
Lemma fallback_groups_ok (keyword_ids : list string)
      (embeddings_array : list (list Q)) :
  List.length keyword_ids = List.length embeddings_array ->
  exists groups,
    fallback_groups keyword_ids embeddings_array = Py.Ok groups
    /\ Spec.members groups = keyword_ids
    /\ List.length groups = List.length keyword_ids
    /\ (forall g, In g groups -> List.length (AdGroup.keywords g) = 1%nat).
Proof.
  intro Hlen. unfold fallback_groups.
  set (g := fun p : nat * string =>
              AdGroup.mk ("fallback_group_" ++ Py.str_nat (fst p))
                         ("Keyword Group " ++ Py.str_nat (fst p + 1))
                         [snd p] (nth (fst p) embeddings_array []) 0.7).
  exists (map g (Py.enumerate keyword_ids)).
  split; [|split; [|split]].
  - apply mapM_ok_map. intros [i k] Hin.
    apply enumerate_index_lt in Hin. rewrite Hlen in Hin.
    rewrite (index_ok embeddings_array i [] Hin). reflexivity.
  - rewrite (members_singletons g snd) by reflexivity.
    apply enumerate_snd.
  - rewrite length_map. apply enumerate_length.
  - intros x Hx. apply in_map_iff in Hx. destruct Hx as [p [<- _]].
    reflexivity.
Qed.

(** Noise points. *)
Lemma noise_groups_ok (keyword_ids : list string)
      (embeddings_array : list (list Q)) (cluster_labels : list Z) :
  (List.length cluster_labels <= List.length keyword_ids)%nat ->
  (List.length cluster_labels <= List.length embeddings_array)%nat ->
  exists groups,
    noise_groups keyword_ids embeddings_array cluster_labels = Py.Ok groups
    /\ Spec.members groups
       = map (Aux.key_at keyword_ids) (where_eq cluster_labels (-1)).
Proof.
  intros Hk Hr. unfold noise_groups.
  set (g := fun p : nat * nat =>
              AdGroup.mk ("noise_group_" ++ Py.str_nat (fst p))
                         ("Individual Keywords " ++ Py.str_nat (fst p + 1))
                         [Aux.key_at keyword_ids (snd p)]
                         (nth (snd p) embeddings_array []) 0.6).
  exists (map g (Py.enumerate (where_eq cluster_labels (-1)))).
  split.
  - apply mapM_ok_map. intros [i idx] Hin.
    apply (in_map snd) in Hin. rewrite enumerate_snd in Hin. simpl in Hin.
    apply where_eq_lt in Hin.
    rewrite (index_ok keyword_ids idx "") by lia.
    rewrite (index_ok embeddings_array idx []) by lia.
    reflexivity.
  - rewrite (members_singletons g (fun p => Aux.key_at keyword_ids (snd p)))
      by reflexivity.
    rewrite <- (map_map snd (Aux.key_at keyword_ids)), enumerate_snd.
    reflexivity.
Qed.

(** The loop over the clusters. *)
Lemma cluster_groups_ok (keyword_ids : list string)
      (embeddings_array : list (list Q)) (d : nat) (cluster_labels : list Z)
      (probabilities_ : option (list Q)) (order : list Z) :
  (List.length cluster_labels <= List.length keyword_ids)%nat ->
  (List.length cluster_labels <= List.length embeddings_array)%nat ->
  exists clusters,
    Py.mapM (cluster_group _generate_group_name keyword_ids embeddings_array d
                           cluster_labels probabilities_) order
    = Py.Ok clusters
    /\ Spec.members (somes clusters)
       = map (Aux.key_at keyword_ids)
             (List.concat
                (map (fun c => if (c =? -1)%Z then []
                               else where_eq cluster_labels c) order)).
Proof.
  intros Hk Hr. induction order as [|c order IH].
  - exists []. split; reflexivity.
  - destruct IH as [clusters [Hm Hmem]].
    cbn [Py.mapM map List.concat]. unfold cluster_group at 1.
    destruct (Z.eqb_spec c (-1)) as [Ec|Ec].
    + cbn [Py.bind]. rewrite Hm. cbn [Py.bind].
      exists (None :: clusters). split; [reflexivity|]. exact Hmem.
    + destruct (where_eq cluster_labels c) as [|i idxs] eqn:Ew.
      * cbn [Py.bind]. rewrite Hm. cbn [Py.bind].
        exists (None :: clusters). split; [reflexivity|]. exact Hmem.
      * rewrite <- Ew.
        assert (Hlt : forall j, In j (where_eq cluster_labels c) ->
                                (j < List.length cluster_labels)%nat)
          by (intros j Hj; exact (where_eq_lt _ _ _ Hj)).
        rewrite (mapM_ok_map (Py.index keyword_ids) (Aux.key_at keyword_ids))
          by (intros j Hj; apply index_ok; specialize (Hlt j Hj); lia).
        rewrite (mapM_ok_map (Py.index embeddings_array)
                             (fun j => nth j embeddings_array []))
          by (intros j Hj; apply index_ok; specialize (Hlt j Hj); lia).
        cbn [Py.bind]. rewrite Hm. cbn [Py.bind].
        eexists. split; [reflexivity|].
        unfold somes. cbn [flat_map]. fold (@somes AdGroup.t clusters).
        rewrite members_app, Hmem, map_app.
        unfold Spec.members at 1. simpl. rewrite app_nil_r. reflexivity.
Qed.

Lemma concat_skip_noise (W : Z -> list nat) (order : list Z) :
  List.concat (map (fun c => if (c =? -1)%Z then [] else W c) order)
  = List.concat (map W (filter (fun c => negb (c =? -1)%Z) order)).
Proof.
  induction order as [|c order IH]; simpl; [reflexivity|].
  destruct (c =? -1)%Z; simpl; rewrite IH; reflexivity.
Qed.

(** Noise and clusters together list every row index once. *)
Lemma grouped_indices_permutation (cluster_labels : list Z) (order : list Z) :
  NoDup order ->
  (forall x, In x order <-> In x cluster_labels) ->
  Permutation (Aux.grouped_indices cluster_labels order)
              (seq 0 (List.length cluster_labels)).
Proof.
  intros Hnd Hset.
  set (cs := (-1)%Z :: filter (fun c => negb (c =? -1)%Z) order).
  assert (Heq : Aux.grouped_indices cluster_labels order
                = map fst (List.concat
                             (map (Aux.block snd (Py.enumerate cluster_labels))
                                  cs))).
  { unfold Aux.grouped_indices, cs. rewrite concat_skip_noise.
    rewrite concat_map, map_map. reflexivity. }
  rewrite Heq, <- (enumerate_fst cluster_labels).
  apply Permutation_map. apply blocks_permutation.
  - constructor.
    + intro H. apply filter_In in H. destruct H as [_ H]. discriminate.
    + apply NoDup_filter. exact Hnd.
  - intros [i x] Hin. simpl.
    destruct (Z.eqb_spec x (-1)) as [E|E]; [left; congruence|].
    right. apply filter_In. split.
    + apply Hset. apply (in_map snd) in Hin.
      rewrite enumerate_snd in Hin. exact Hin.
    + simpl. destruct (Z.eqb_spec x (-1)); [contradiction|reflexivity].
Qed.

Lemma ndim_same_dimension (rows : list (list Q)) :
  rows <> [] ->
  (forall v w, In v rows -> In w rows -> List.length v = List.length w) ->
  ndim rows = 2%nat.
Proof.
  intros Hne Hsame. unfold ndim. destruct rows as [|r rest]; [congruence|].
  assert (H : forallb (fun r' => (List.length r' =? List.length r)%nat) rest
              = true).
  { apply forallb_forall. intros r' Hr'. apply Nat.eqb_eq.
    apply Hsame; [right; exact Hr'|left; reflexivity]. }
  rewrite H. reflexivity.
Qed.

(** Merging the builder's two kinds of update. *)
Lemma apply_groups_attempts (state : GlobalState.t) (groups : list AdGroup.t)
      (attempts : Z) :
  let state' :=
    Update.apply state
                 [Update.ad_groups groups; Update.clustering_attempts attempts]
  in
  GlobalState.ad_groups state' = Some groups
  /\ GlobalState.clustering_attempts state' = attempts
  /\ GlobalState.embeddings state' = GlobalState.embeddings state.
Proof. destruct state. repeat split. Qed.

Lemma apply_groups (state : GlobalState.t) (groups : list AdGroup.t) :
  let state' := Update.apply state [Update.ad_groups groups] in
  GlobalState.ad_groups state' = Some groups
  /\ GlobalState.clustering_attempts state'
     = GlobalState.clustering_attempts state
  /\ GlobalState.embeddings state' = GlobalState.embeddings state.
Proof. destruct state. repeat split. Qed.

End BuilderBranches.

Section Builder.
Local Open Scope Q_scope.
Local Open Scope string_scope.
Import ClusteringAgent.

Variable fit_predict : list (list Q) -> Fit.
Variable set_iter : list Z -> list Z.
Variable _generate_group_name : list string -> string.

(** What the builder returns on the clustering branch. *)
Lemma call_fitted (state : GlobalState.t) (cluster_labels : list Z)
      (probabilities_ : option (list Q)) :
  Spec.enumerates_set set_iter ->
  (3 <= List.length (GlobalState.embeddings state))%nat ->
  ndim (map snd (GlobalState.embeddings state)) = 2%nat ->
  fit_predict (map snd (GlobalState.embeddings state))
  = Fitted cluster_labels probabilities_ ->
  List.length cluster_labels = List.length (GlobalState.embeddings state)
  \/ cluster_labels = [] ->
  exists groups,
    __call__ fit_predict set_iter _generate_group_name state
    = Py.Ok [Update.ad_groups groups;
             Update.clustering_attempts
               (GlobalState.clustering_attempts state + 1)]
    /\ Permutation (Spec.members groups) (Spec.keyword_ids state).
Proof.
  intros Hset Hn Hdim Hfit Hlabels.
  unfold __call__, Spec.keyword_ids.
  destruct (GlobalState.embeddings state) as [|e embeddings] eqn:He;
    [simpl in Hn; lia|].
  rewrite <- He in *.
  destruct (Nat.ltb_spec (List.length (GlobalState.embeddings state)) 3)
    as [Hlt|_]; [lia|].
  rewrite Hdim, Hfit. cbn [Nat.eqb negb].
  set (keys := map fst (GlobalState.embeddings state)).
  set (rows := map snd (GlobalState.embeddings state)).
  assert (Hkeys : exists k ks, keys = k :: ks).
  { unfold keys. rewrite He. simpl. eauto. }
  destruct Hkeys as [k [ks Hkeys]].
  destruct Hlabels as [Hlen|Hnil].
  - assert (Hk : (List.length cluster_labels <= List.length keys)%nat)
      by (unfold keys; rewrite length_map; lia).
    assert (Hr : (List.length cluster_labels <= List.length rows)%nat)
      by (unfold rows; rewrite length_map; lia).
    destruct (noise_groups_ok keys rows cluster_labels Hk Hr)
      as [noise [Hnoise Hnm]].
    destruct (cluster_groups_ok _generate_group_name keys rows
                (List.length (hd [] rows)) cluster_labels probabilities_
                (set_iter cluster_labels) Hk Hr)
      as [clusters [Hclusters Hcm]].
    rewrite Hnoise. cbn [Py.bind]. rewrite Hclusters. cbn [Py.bind].
    assert (Hmem : Spec.members (noise ++ somes clusters)
                   = map (Aux.key_at keys)
                         (Aux.grouped_indices cluster_labels
                                              (set_iter cluster_labels))).
    { rewrite members_app, Hnm, Hcm. unfold Aux.grouped_indices.
      rewrite map_app. reflexivity. }
    destruct (noise ++ somes clusters)%list as [|g gs] eqn:Egroups.
    + rewrite Hkeys. eexists. split; [reflexivity|].
      unfold Spec.members. simpl. rewrite app_nil_r. reflexivity.
    + rewrite Hkeys. eexists. split; [reflexivity|].
      rewrite <- Hkeys, Hmem.
      destruct (Hset cluster_labels) as [Hnd Hin].
      rewrite (grouped_indices_permutation cluster_labels _ Hnd Hin).
      rewrite Hlen, <- (length_map fst). fold keys.
      unfold Aux.key_at. rewrite map_nth_seq. reflexivity.
  - subst cluster_labels.
    assert (Hiter : set_iter [] = []).
    { destruct (Hset []) as [_ Hin].
      destruct (set_iter []) as [|c cs]; [reflexivity|].
      exfalso. apply (Hin c). left. reflexivity. }
    rewrite Hiter. cbn. rewrite Hkeys. eexists. split; [reflexivity|].
    unfold Spec.members. simpl. rewrite app_nil_r. reflexivity.
Qed.

(** Every branch of the ladder returns groups whose members, read in order,
    are a rearrangement of the keyword ids. *)
Lemma call_partitions (state : GlobalState.t) :
  Spec.same_dimension state ->
  Spec.labels_every_row fit_predict state ->
  Spec.enumerates_set set_iter ->
  exists update groups,
    __call__ fit_predict set_iter _generate_group_name state = Py.Ok update
    /\ GlobalState.ad_groups (Update.apply state update) = Some groups
    /\ Permutation (Spec.members groups) (Spec.keyword_ids state).
Proof.
  intros Hdim Hlabels Hset.
  destruct (GlobalState.embeddings state) as [|e embeddings] eqn:He.
  - exists [Update.ad_groups [];
            Update.clustering_attempts
              (GlobalState.clustering_attempts state + 1)], [].
    unfold __call__, Spec.keyword_ids. rewrite He.
    split; [reflexivity|]. split; [apply apply_groups_attempts|].
    constructor.
  - destruct (Nat.ltb_spec (List.length (GlobalState.embeddings state)) 3)
      as [Hlt|Hge].
    + exists [Update.ad_groups (simple_groups (GlobalState.embeddings state));
              Update.clustering_attempts
                (GlobalState.clustering_attempts state + 1)],
             (simple_groups (GlobalState.embeddings state)).
      split.
      * unfold __call__. rewrite He. rewrite He in Hlt.
        apply Nat.ltb_lt in Hlt. rewrite Hlt. reflexivity.
      * split; [apply apply_groups_attempts|].
        rewrite simple_groups_members. reflexivity.
    + assert (Hnd : ndim (map snd (GlobalState.embeddings state)) = 2%nat).
      { apply ndim_same_dimension; [rewrite He; discriminate|exact Hdim]. }
      destruct (fit_predict (map snd (GlobalState.embeddings state)))
        as [cluster_labels probabilities_|err] eqn:Hfit.
      * destruct (call_fitted state cluster_labels probabilities_
                              Hset Hge Hnd Hfit (Hlabels _ _ Hfit))
          as [groups [Hcall Hperm]].
        eexists. exists groups. split; [exact Hcall|].
        split; [apply apply_groups_attempts|exact Hperm].
      * destruct (fallback_groups_ok
                    (map fst (GlobalState.embeddings state))
                    (map snd (GlobalState.embeddings state)))
          as [groups (Hfb & Hmem & _)];
          [rewrite !length_map; reflexivity|].
        exists [Update.ad_groups groups], groups. split.
        -- unfold __call__.
           destruct (GlobalState.embeddings state) eqn:He'; [discriminate|].
           rewrite <- He' in *.
           apply Nat.ltb_ge in Hge. rewrite Hge, Hnd, Hfit, Hfb. reflexivity.
        -- split; [apply apply_groups|]. rewrite Hmem. reflexivity.
Qed.

(** C3.  For an embedding map (distinct keyword ids, vectors of one
    dimension), a clusterer that labels every row and a set iteration that
    visits each label once, the builder returns ad groups whose member lists
    together are a rearrangement of the keyword ids: every id is in some
    group, and none occurs twice, within a group or across groups.  This
    holds on every branch: no embeddings, fewer than three, clustering with
    noise points, the fallback after the clusterer raised, and the catch-all
    single group. *)
Theorem cluster_builder_partitions (state : GlobalState.t) :
  NoDup (Spec.keyword_ids state) ->
  Spec.same_dimension state ->
  Spec.labels_every_row fit_predict state ->
  Spec.enumerates_set set_iter ->
  exists update groups,
    __call__ fit_predict set_iter _generate_group_name state = Py.Ok update
    /\ GlobalState.ad_groups (Update.apply state update) = Some groups
    /\ Permutation (Spec.members groups) (Spec.keyword_ids state)
    /\ NoDup (Spec.members groups)
    /\ (forall k,
          In k (Spec.keyword_ids state)
          <-> exists g, In g groups /\ In k (AdGroup.keywords g)).
Proof.
  intros Hkeys Hdim Hlabels Hset.
  destruct (call_partitions state Hdim Hlabels Hset)
    as (update & groups & Hcall & Hgroups & Hperm).
  exists update, groups.
  split; [exact Hcall|]. split; [exact Hgroups|]. split; [exact Hperm|].
  split.
  - apply (Permutation_NoDup (Permutation_sym Hperm) Hkeys).
  - intro k. rewrite <- members_In. split; intro H.
    + exact (Permutation_in k (Permutation_sym Hperm) H).
    + exact (Permutation_in k Hperm H).
Qed.

End Builder.

(** ** The clustering loop and the attempt counter *)

Section Loop.
Local Open Scope Q_scope.
Local Open Scope string_scope.
Import ClusteringAgent WorkflowBuilder.

Variable fit_predict : list (list Q) -> Fit.
Variable set_iter : list Z -> list Z.
Variable _generate_group_name : list string -> string.

(** A state whose groups are at least three singletons is sent back to the
    builder while fewer than two attempts are counted. *)
Lemma gate_on_singletons (state : GlobalState.t) (groups : list AdGroup.t) :
  GlobalState.embeddings state <> [] ->
  GlobalState.ad_groups state = Some groups ->
  (3 <= List.length groups)%nat ->
  (forall g, In g groups -> List.length (AdGroup.keywords g) = 1%nat) ->
  (GlobalState.clustering_attempts state < 2)%Z ->
  _should_recluster state = recluster.
Proof.
  intros He Hg Hn Hone Hatt.
  assert (Hgroups : Spec.groups_of state = groups)
    by (unfold Spec.groups_of; rewrite Hg; reflexivity).
  assert (Hgne : Spec.groups_of state <> []).
  { rewrite Hgroups. intro E. rewrite E in Hn. simpl in Hn. lia. }
  rewrite (gate_with_groups state He Hgne).
  rewrite Hgroups. unfold Spec.poor_count.
  rewrite filter_all.
  - assert (El : Py.ltb (Spec.size groups * 0.3)
                        (Spec.count (List.length groups)) = true).
    { apply ltb_true_iff. unfold Spec.size, Spec.count.
      assert (H3 : inject_Z 3 <= inject_Z (Z.of_nat (List.length groups)))
        by (rewrite <- Zle_Qle; lia).
      change (inject_Z 3) with (3 # 1) in H3. lra. }
    rewrite El.
    destruct (Z.geb_spec (GlobalState.clustering_attempts state) 2);
      [lia|reflexivity].
  - intros g Hin. unfold poor. rewrite (Hone g Hin). reflexivity.
Qed.

(** One run of the node when the clusterer raises. *)
Lemma cluster_keywords_on_fault (state : GlobalState.t) :
  (3 <= List.length (GlobalState.embeddings state))%nat ->
  Spec.same_dimension state ->
  (exists e, fit_predict (map snd (GlobalState.embeddings state)) = Failed e) ->
  (GlobalState.clustering_attempts state < 2)%Z ->
  exists state',
    cluster_keywords fit_predict set_iter _generate_group_name state
    = Py.Ok state'
    /\ GlobalState.clustering_attempts state'
       = GlobalState.clustering_attempts state
    /\ GlobalState.embeddings state' = GlobalState.embeddings state
    /\ _should_recluster state' = recluster.
Proof.
  intros Hn Hdim [err Hfit] Hatt.
  assert (Hne : GlobalState.embeddings state <> [])
    by (intro E; rewrite E in Hn; simpl in Hn; lia).
  assert (Hnd : ndim (map snd (GlobalState.embeddings state)) = 2%nat).
  { apply ndim_same_dimension; [|exact Hdim].
    intro E. apply map_eq_nil in E. contradiction. }
  destruct (fallback_groups_ok (map fst (GlobalState.embeddings state))
                               (map snd (GlobalState.embeddings state)))
    as [groups (Hfb & _ & Hlen & Hone)];
    [rewrite !length_map; reflexivity|].
  rewrite length_map in Hlen.
  assert (Hcall : __call__ fit_predict set_iter _generate_group_name state
                  = Py.Ok [Update.ad_groups groups]).
  { unfold __call__.
    destruct (GlobalState.embeddings state) eqn:He; [congruence|].
    rewrite <- He in *. apply Nat.ltb_ge in Hn.
    rewrite Hn, Hnd, Hfit, Hfb. reflexivity. }
  exists (Update.apply state [Update.ad_groups groups]).
  destruct (apply_groups state groups) as (Hg & Ha & He).
  split; [unfold cluster_keywords; rewrite Hcall; reflexivity|].
  split; [exact Ha|]. split; [exact He|].
  apply (gate_on_singletons _ groups).
  - rewrite He. exact Hne.
  - exact Hg.
  - lia.
  - exact Hone.
  - rewrite Ha. exact Hatt.
Qed.

(** Every return of the builder other than the fault fallback carries the
    incremented counter. *)
Lemma call_counts_attempt (state : GlobalState.t) (update : Update.t) :
  (forall e, fit_predict (map snd (GlobalState.embeddings state)) <> Failed e) ->
  __call__ fit_predict set_iter _generate_group_name state = Py.Ok update ->
  exists groups,
    update = [Update.ad_groups groups;
              Update.clustering_attempts
                (GlobalState.clustering_attempts state + 1)].
Proof.
  intros Hfit. unfold __call__.
  destruct (GlobalState.embeddings state) as [|e embeddings] eqn:He.
  - intro H. injection H as <-. eauto.
  - rewrite <- He in *.
    destruct (List.length (GlobalState.embeddings state) <? 3)%nat.
    + intro H. injection H as <-. eauto.
    + destruct (negb (ndim (map snd (GlobalState.embeddings state)) =? 2)%nat).
      * intro H. injection H as <-. eauto.
      * destruct (fit_predict (map snd (GlobalState.embeddings state)))
          as [cluster_labels probabilities_|err] eqn:Ef.
        -- destruct (noise_groups _ _ _) as [noise|]; [|discriminate].
           cbn [Py.bind].
           destruct (Py.mapM _ _) as [clusters|]; [|discriminate].
           cbn [Py.bind]. intro H. injection H as <-. eauto.
        -- exfalso. exact (Hfit err eq_refl).
Qed.

(** Once three attempts are counted the gate lets the pipeline proceed. *)
Lemma gate_continues_at_three (state : GlobalState.t) :
  (3 <= GlobalState.clustering_attempts state)%Z ->
  _should_recluster state = continue_processing.
Proof.
  intro H. unfold _should_recluster.
  destruct (GlobalState.embeddings state); [reflexivity|].
  destruct (Z.geb_spec (GlobalState.clustering_attempts state) 3); [|lia].
  destruct (Z.geb_spec (GlobalState.clustering_attempts state) 2); [|lia].
  destruct (GlobalState.ad_groups state) as [[|g gs]|]; try reflexivity.
  destruct (Py.ltb _ _); reflexivity.
Qed.

Lemma cluster_keywords_counts (state : GlobalState.t) :
  Spec.same_dimension state ->
  Spec.labels_every_row fit_predict state ->
  Spec.enumerates_set set_iter ->
  (forall e, fit_predict (map snd (GlobalState.embeddings state)) <> Failed e) ->
  exists state',
    cluster_keywords fit_predict set_iter _generate_group_name state
    = Py.Ok state'
    /\ GlobalState.clustering_attempts state'
       = (GlobalState.clustering_attempts state + 1)%Z
    /\ GlobalState.embeddings state' = GlobalState.embeddings state.
Proof.
  intros Hdim Hlabels Hset Hfit.
  destruct (call_partitions fit_predict set_iter _generate_group_name state
                            Hdim Hlabels Hset)
    as (update & _ & Hcall & _).
  destruct (call_counts_attempt state update Hfit Hcall) as [groups ->].
  exists (Update.apply state
            [Update.ad_groups groups;
             Update.clustering_attempts
               (GlobalState.clustering_attempts state + 1)]).
  unfold cluster_keywords. rewrite Hcall.
  destruct (apply_groups_attempts
              state groups (GlobalState.clustering_attempts state + 1))
    as (_ & Ha & He).
  split; [reflexivity|]. split; assumption.
Qed.

(** Without a fault of the clusterer the builder runs at most three times
    before the gate answers [continue]. *)
Lemma clustering_loop_ends (state : GlobalState.t) :
  Spec.same_dimension state ->
  Spec.labels_every_row fit_predict state ->
  Spec.enumerates_set set_iter ->
  (forall e, fit_predict (map snd (GlobalState.embeddings state)) <> Failed e) ->
  (0 <= GlobalState.clustering_attempts state)%Z ->
  exists state' n,
    clustering_loop fit_predict set_iter _generate_group_name 3 0 state
    = Py.Ok (Some (state', n))
    /\ (1 <= n <= 3)%nat.
Proof.
  intros Hdim Hlabels Hset Hfit Hatt.
  assert (Hinv : forall s,
             GlobalState.embeddings s = GlobalState.embeddings state ->
             Spec.same_dimension s
             /\ Spec.labels_every_row fit_predict s
             /\ (forall e, fit_predict (map snd (GlobalState.embeddings s))
                           <> Failed e)).
  { intros s E. unfold Spec.same_dimension, Spec.labels_every_row.
    rewrite E. auto. }
  destruct (cluster_keywords_counts state Hdim Hlabels Hset Hfit)
    as (s1 & Hs1 & Ha1 & He1).
  cbn [clustering_loop]. rewrite Hs1. cbn [Py.bind].
  destruct (_should_recluster s1); [|exists s1, 1%nat; split; [reflexivity|lia]].
  destruct (Hinv s1 He1) as (Hd1 & Hl1 & Hf1).
  destruct (cluster_keywords_counts s1 Hd1 Hl1 Hset Hf1)
    as (s2 & Hs2 & Ha2 & He2).
  rewrite Hs2. cbn [Py.bind].
  destruct (_should_recluster s2); [|exists s2, 2%nat; split; [reflexivity|lia]].
  destruct (Hinv s2 (eq_trans He2 He1)) as (Hd2 & Hl2 & Hf2).
  destruct (cluster_keywords_counts s2 Hd2 Hl2 Hset Hf2)
    as (s3 & Hs3 & Ha3 & He3).
  rewrite Hs3. cbn [Py.bind].
  rewrite (gate_continues_at_three s3) by lia.
  exists s3, 3%nat. split; [reflexivity|lia].
Qed.
(** C1, where the code departs from it.  On three or more embeddings of one
    dimension, when the clusterer raises and fewer than two attempts are
    counted, a run of the builder leaves the attempt counter as it was and
    the gate answers [recluster]; so the loop never reaches [continue],
    whatever the step budget. *)
Theorem clusterer_fault_leaves_counter (state : GlobalState.t) :
  (3 <= List.length (GlobalState.embeddings state))%nat ->
  Spec.same_dimension state ->
  (exists e, fit_predict (map snd (GlobalState.embeddings state)) = Failed e) ->
  (GlobalState.clustering_attempts state < 2)%Z ->
  (exists state',
     cluster_keywords fit_predict set_iter _generate_group_name state
     = Py.Ok state'
     /\ GlobalState.clustering_attempts state'
        = GlobalState.clustering_attempts state
     /\ _should_recluster state' = recluster)
  /\ (forall budget runs,
        clustering_loop fit_predict set_iter _generate_group_name
                        budget runs state
        = Py.Ok None).
Proof.
  intros Hn Hdim Hfit Hatt. split.
  - destruct (cluster_keywords_on_fault state Hn Hdim Hfit Hatt)
      as (state' & Hstep & Ha & _ & Hgate).
    exists state'. auto.
  - intro budget. revert state Hn Hdim Hfit Hatt.
    induction budget as [|budget IH]; intros state Hn Hdim Hfit Hatt runs;
      [reflexivity|].
    destruct (cluster_keywords_on_fault state Hn Hdim Hfit Hatt)
      as (state' & Hstep & Ha & He & Hgate).
    cbn [clustering_loop]. rewrite Hstep. cbn [Py.bind]. rewrite Hgate.
    apply IH.
    + rewrite He. exact Hn.
    + unfold Spec.same_dimension. rewrite He. exact Hdim.
    + rewrite He. exact Hfit.
    + rewrite Ha. exact Hatt.
Qed.

End Loop.

(** ** The builder and the loop on three keywords *)

Section BuilderScenario.
Local Open Scope string_scope.

Lemma three_keys_distinct :
  NoDup (Spec.keyword_ids (Scenario.clustering_state 0)).
Proof.
  repeat constructor; simpl; intuition discriminate.
Qed.

Lemma three_same_dimension (attempts : Z) :
  Spec.same_dimension (Scenario.clustering_state attempts).
Proof.
  intros v w Hv Hw. simpl in Hv, Hw.
  destruct Hv as [<-|[<-|[<-|[]]]]; destruct Hw as [<-|[<-|[<-|[]]]];
    reflexivity.
Qed.

Lemma nodup_enumerates : Spec.enumerates_set Scenario.set_iter.
Proof.
  intro l. unfold Scenario.set_iter. split.
  - apply NoDup_nodup.
  - intro x. apply nodup_In.
Qed.

Lemma cluster_builder_partitions_witness :
  exists update groups,
    ClusteringAgent.__call__ Scenario.fit_two_and_noise Scenario.set_iter
                             Scenario.group_name (Scenario.clustering_state 0)
    = Py.Ok update
    /\ GlobalState.ad_groups
         (Update.apply (Scenario.clustering_state 0) update) = Some groups
    /\ Permutation (Spec.members groups)
                   ["red shoes"; "blue shoes"; "garden hose"].
Proof.
  assert (Hlabels : Spec.labels_every_row Scenario.fit_two_and_noise
                                          (Scenario.clustering_state 0)).
  { intros labels p H. injection H as <- _. left. reflexivity. }
  destruct (cluster_builder_partitions
              Scenario.fit_two_and_noise Scenario.set_iter Scenario.group_name
              (Scenario.clustering_state 0)
              three_keys_distinct (three_same_dimension 0) Hlabels
              nodup_enumerates)
    as (update & groups & Hcall & Hgroups & Hperm & _).
  exists update, groups. auto.
Defined.

Lemma clusterer_fault_leaves_counter_witness :
  WorkflowBuilder.clustering_loop
    Scenario.failing_fit Scenario.set_iter Scenario.group_name
    50 0 (Scenario.clustering_state 0)
  = Py.Ok None.
Proof.
  assert (Hn : (3 <= List.length
                      (GlobalState.embeddings (Scenario.clustering_state 0)))%nat)
    by (simpl; lia).
  assert (Hfit : exists e,
             Scenario.failing_fit
               (map snd (GlobalState.embeddings (Scenario.clustering_state 0)))
             = ClusteringAgent.Failed e)
    by (eexists; reflexivity).
  assert (Hatt : (GlobalState.clustering_attempts (Scenario.clustering_state 0)
                  < 2)%Z)
    by (simpl; lia).
  exact (proj2 (clusterer_fault_leaves_counter
                  Scenario.failing_fit Scenario.set_iter Scenario.group_name
                  (Scenario.clustering_state 0)
                  Hn (three_same_dimension 0) Hfit Hatt) 50%nat 0%nat).
Defined.

End BuilderScenario.

(* ================================================================== *)
(** * Further properties *)
(* ================================================================== *)

(** ** Sorting as Python's [sorted(..., reverse=True)] does *)

Lemma firstn_In {A} (n : nat) (l : list A) (x : A) :
  In x (firstn n l) -> In x l.
Proof.
  intro H. rewrite <- (firstn_skipn n l). apply in_or_app. left. exact H.
Qed.

Lemma skipn_In {A} (n : nat) (l : list A) (x : A) :
  In x (skipn n l) -> In x l.
Proof.
  intro H. rewrite <- (firstn_skipn n l). apply in_or_app. right. exact H.
Qed.

Section SortFacts.
Context {A K : Type} (key : A -> K) (le : K -> K -> bool).

Lemma insert_desc_permutation (x : A) (l : list A) :
  Permutation (Py.insert_desc key le x l) (x :: l).
Proof.
  induction l as [|y l IH]; simpl; [reflexivity|].
  destruct (le (key y) (key x)); [reflexivity|].
  rewrite IH. apply perm_swap.
Qed.

Lemma sorted_desc_permutation (l : list A) :
  Permutation (Py.sorted_desc key le l) l.
Proof.
  induction l as [|x l IH]; simpl; [reflexivity|].
  rewrite insert_desc_permutation. constructor. exact IH.
Qed.

Hypothesis le_total : forall a b, le a b = true \/ le b a = true.
Hypothesis le_trans :
  forall a b c, le a b = true -> le b c = true -> le a c = true.

Lemma insert_desc_descending (x : A) (l : list A) :
  Order.descending key le l ->
  Order.descending key le (Py.insert_desc key le x l).
Proof.
  unfold Order.descending.
  induction l as [|y l IH]; intro Hs; simpl.
  - constructor; constructor.
  - inversion Hs as [|? ? Hl Hy]; subst.
    destruct (le (key y) (key x)) eqn:E.
    + constructor; [exact Hs|]. constructor; [exact E|].
      rewrite Forall_forall in *. intros z Hz.
      exact (le_trans _ _ _ (Hy z Hz) E).
    + constructor; [exact (IH Hl)|].
      rewrite Forall_forall in *. intros z Hz.
      apply (Permutation_in _ (insert_desc_permutation x l)) in Hz.
      destruct Hz as [<-|Hz]; [|exact (Hy z Hz)].
      destruct (le_total (key x) (key y)) as [H|H]; [exact H|congruence].
Qed.

Lemma sorted_desc_descending (l : list A) :
  Order.descending key le (Py.sorted_desc key le l).
Proof.
  induction l as [|x l IH]; simpl.
  - constructor.
  - apply insert_desc_descending. exact IH.
Qed.

Lemma descending_firstn (n : nat) (l : list A) :
  Order.descending key le l -> Order.descending key le (firstn n l).
Proof.
  unfold Order.descending. revert n.
  induction l as [|x l IH]; intros [|n] Hs; simpl; try constructor.
  - inversion Hs; subst. apply IH. assumption.
  - inversion Hs as [|? ? _ Hx]; subst.
    rewrite Forall_forall in *. intros z Hz. apply Hx.
    exact (firstn_In n l z Hz).
Qed.

Lemma descending_best_first (n : nat) (l : list A) :
  Order.descending key le l ->
  Order.best_first key le (firstn n l) (skipn n l).
Proof.
  unfold Order.descending, Order.best_first. revert n.
  induction l as [|x l IH]; intros [|n] Hs a b Ha Hb; simpl in *;
    try contradiction.
  inversion Hs as [|? ? Hl Hx]; subst.
  destruct Ha as [<-|Ha].
  - rewrite Forall_forall in Hx. apply Hx. exact (skipn_In n l b Hb).
  - exact (IH n Hl a b Ha Hb).
Qed.

End SortFacts.

(** ** Keyword stage: what a successful run writes *)

Section KeywordOutput.
Local Open Scope Q_scope.
Local Open Scope string_scope.
Import KeywordProcessor.

Lemma qleb_total (a b : Q) : Py.leb a b = true \/ Py.leb b a = true.
Proof.
  unfold Py.leb. rewrite !Qle_bool_iff.
  destruct (Qlt_le_dec b a) as [H|H]; [right; apply Qlt_le_weak; exact H|left; exact H].
Qed.

Lemma qleb_trans (a b c : Q) :
  Py.leb a b = true -> Py.leb b c = true -> Py.leb a c = true.
Proof.
  unfold Py.leb. rewrite !Qle_bool_iff. apply Qle_trans.
Qed.



Lemma filter_keeps_exactly_aux (keywords : list RawKeyword.t)
      (kw : RawKeyword.t) :
  In kw (_filter_keywords keywords) -> In kw keywords /\ dropped kw = false.
Proof.
  unfold _filter_keywords. rewrite filter_In, negb_true_iff. tauto.
Qed.

(** The written score does not change what the score is computed from. *)
Lemma score_of_scored (kw : RawKeyword.t) (v : Q) :
  _calculate_opportunity_score (RawKeyword.set_opportunity_score kw v)
  = _calculate_opportunity_score kw.
Proof. reflexivity. Qed.

Lemma score_keywords_In (filtered : list RawKeyword.t) (kw : RawKeyword.t) :
  In kw (score_keywords filtered)
  <-> exists kw0,
        In kw0 filtered
        /\ 0.15 <= _calculate_opportunity_score kw0
        /\ kw = RawKeyword.set_opportunity_score
                  kw0 (_calculate_opportunity_score kw0).
Proof.
  induction filtered as [|k rest IH]; simpl.
  - split; [contradiction|]. intros (kw0 & [] & _).
  - destruct (Py.leb 0.15 (_calculate_opportunity_score k)) eqn:E.
    + simpl. rewrite IH. split.
      * intros [<-|(kw0 & Hin & Hs & ->)].
        -- exists k. split; [left; reflexivity|].
           split; [apply Qle_bool_iff; exact E|reflexivity].
        -- exists kw0. auto.
      * intros (kw0 & [<-|Hin] & Hs & ->); [left; reflexivity|].
        right. exists kw0. auto.
    + rewrite IH. split.
      * intros (kw0 & Hin & Hs & ->). exists kw0. auto.
      * intros (kw0 & [<-|Hin] & Hs & ->).
        -- apply Qle_bool_iff in Hs. unfold Py.leb in E. congruence.
        -- exists kw0. auto.
Qed.

(** The sorted list of scored keywords, before the cut at 150. *)
Lemma call_writes (raised : option string) (state : GlobalState.t)
      (v : list RawKeyword.t) :
  In (Update.raw_keywords v) (__call__ raised state) ->
  exists raw_keywords,
    raised = None
    /\ GlobalState.raw_keywords state = Some raw_keywords
    /\ raw_keywords <> []
    /\ __call__ raised state = [Update.raw_keywords v]
    /\ v = firstn max_keywords
                  (Py.sorted_desc Order.score_of Py.leb
                                  (score_keywords
                                     (_filter_keywords raw_keywords))).
Proof.
  unfold __call__, handle_error.
  destruct raised as [e|]; [intros [H|[]]; discriminate|].
  destruct (GlobalState.raw_keywords state) as [[|k ks]|] eqn:Hraw;
    try (intros [H|[]]; discriminate).
  intro H. exists (k :: ks).
  split; [reflexivity|]. split; [reflexivity|]. split; [discriminate|].
  destruct (_filter_keywords (k :: ks)) as [|f fs] eqn:Hf.
  - destruct H as [H|[]]. injection H as <-. split; reflexivity.
  - set (sorted := Py.sorted_desc _ Py.leb (score_keywords (f :: fs))) in *.
    change (Py.sorted_desc Order.score_of Py.leb
                           (score_keywords (f :: fs))) with sorted.
    destruct (Nat.ltb_spec max_keywords (List.length sorted)) as [Hlt|Hge].
    + destruct H as [H|[]]. injection H as <-. split; reflexivity.
    + destruct H as [H|[]]. injection H as <-.
      rewrite (firstn_all2 sorted Hge). split; reflexivity.
Qed.

End KeywordOutput.

Section KeywordOutputTheorems.
Local Open Scope Q_scope.
Local Open Scope string_scope.
Import KeywordProcessor.

(** X2.  When the input is not empty but no keyword survives the filter and
    the 0.15 threshold, the stage writes the empty list and logs nothing. *)
Theorem nothing_surviving_is_not_an_error
        (state : GlobalState.t) (kw : RawKeyword.t)
        (rest : list RawKeyword.t) :
  GlobalState.raw_keywords state = Some (kw :: rest) ->
  (forall k, In k (kw :: rest) ->
             dropped k = true \/ _calculate_opportunity_score k < 0.15) ->
  let state' := Update.apply state (__call__ None state) in
  __call__ None state = [Update.raw_keywords []]
  /\ GlobalState.raw_keywords state' = Some []
  /\ GlobalState.error_log state' = GlobalState.error_log state.
Proof.
  intros Hraw Hnone.
  assert (Hscored : score_keywords (_filter_keywords (kw :: rest)) = []).
  { destruct (score_keywords (_filter_keywords (kw :: rest))) as [|s ss] eqn:E;
      [reflexivity|].
    assert (Hin : In s (score_keywords (_filter_keywords (kw :: rest))))
      by (rewrite E; left; reflexivity).
    apply score_keywords_In in Hin. destruct Hin as (k0 & Hk0 & Hs & _).
    apply filter_keeps_exactly_aux in Hk0. destruct Hk0 as [Hin Hd].
    destruct (Hnone k0 Hin) as [H|H]; [congruence|].
    exfalso. exact (Qlt_not_le _ _ H Hs). }
  assert (Hcall : __call__ None state = [Update.raw_keywords []]).
  { unfold __call__. rewrite Hraw.
    destruct (_filter_keywords (kw :: rest)) as [|f fs] eqn:Hf;
      [reflexivity|].
    rewrite Hscored. reflexivity. }
  cbv zeta. rewrite Hcall. destruct state. simpl. auto.
Qed.

Lemma nothing_surviving_is_not_an_error_witness :
  __call__ None Cases.nothing_survives = [Update.raw_keywords []].
Proof.
  refine (proj1 (nothing_surviving_is_not_an_error
                   Cases.nothing_survives Cases.rare [Cases.crowded]
                   eq_refl _)).
  intros k [<-|[<-|[]]].
  - left. reflexivity.
  - right. reflexivity.
Defined.

(** X3.  Whatever keyword list the stage writes has at most 150 entries and
    runs from the highest opportunity score to the lowest. *)
Theorem keyword_output_sorted_and_bounded
        (raised : option string) (state : GlobalState.t)
        (v : list RawKeyword.t) :
  In (Update.raw_keywords v) (__call__ raised state) ->
  (List.length v <= 150)%nat
  /\ Order.descending Order.score_of Py.leb v.
Proof.
  intro H. destruct (call_writes raised state v H)
    as (raw & _ & _ & _ & _ & ->).
  split.
  - apply firstn_le_length.
  - apply descending_firstn.
    apply sorted_desc_descending; [exact qleb_total|exact qleb_trans].
Qed.

Lemma keyword_output_sorted_and_bounded_witness :
  (List.length Cases.two_scored <= 150)%nat
  /\ Order.descending Order.score_of Py.leb Cases.two_scored.
Proof.
  apply (keyword_output_sorted_and_bounded None Cases.two_keywords).
  left. reflexivity.
Defined.

(** X4.  Every keyword the stage writes is an input keyword that passes the
    filter, with its own opportunity score written into it, and that score
    is at least 0.15. *)
Theorem keyword_output_scores
        (raised : option string) (state : GlobalState.t)
        (v : list RawKeyword.t) :
  In (Update.raw_keywords v) (__call__ raised state) ->
  exists raw_keywords,
    GlobalState.raw_keywords state = Some raw_keywords
    /\ forall kw, In kw v ->
         RawKeyword.opportunity_score kw
         = Some (_calculate_opportunity_score kw)
         /\ 0.15 <= _calculate_opportunity_score kw
         /\ dropped kw = false
         /\ exists kw0,
              In kw0 raw_keywords
              /\ kw = RawKeyword.set_opportunity_score
                        kw0 (_calculate_opportunity_score kw0).
Proof.
  intro H. destruct (call_writes raised state v H)
    as (raw & _ & Hraw & _ & _ & ->).
  exists raw. split; [exact Hraw|].
  intros kw Hin. apply firstn_In in Hin.
  apply (Permutation_in _ (sorted_desc_permutation _ _ _)) in Hin.
  apply score_keywords_In in Hin. destruct Hin as (kw0 & Hin0 & Hs & ->).
  apply filter_keeps_exactly_aux in Hin0. destruct Hin0 as [Hin0 Hd].
  split; [reflexivity|]. split; [exact Hs|]. split; [exact Hd|].
  exists kw0. split; [exact Hin0|reflexivity].
Qed.

Lemma keyword_output_scores_witness :
  forallb (fun kw =>
             match RawKeyword.opportunity_score kw with
             | Some s => Qeq_bool s (_calculate_opportunity_score kw)
             | None => false
             end) Cases.two_scored = true
  /\ exists raw_keywords,
       GlobalState.raw_keywords Cases.two_keywords = Some raw_keywords.
Proof.
  split; [reflexivity|].
  destruct (keyword_output_scores None Cases.two_keywords Cases.two_scored
                                  (or_introl eq_refl))
    as (raw & Hraw & _).
  exists raw. exact Hraw.
Defined.

(** X5.  The cut at 150 keeps the best: the written list together with what
    was cut is a rearrangement of the scored keywords, and no cut keyword
    scores higher than a written one. *)
Theorem keyword_output_keeps_best
        (raised : option string) (state : GlobalState.t)
        (v : list RawKeyword.t) :
  In (Update.raw_keywords v) (__call__ raised state) ->
  exists raw_keywords cut,
    GlobalState.raw_keywords state = Some raw_keywords
    /\ Permutation (v ++ cut)
                   (score_keywords (_filter_keywords raw_keywords))
    /\ Order.best_first Order.score_of Py.leb v cut.
Proof.
  intro H. destruct (call_writes raised state v H)
    as (raw & _ & Hraw & _ & _ & ->).
  set (sorted := Py.sorted_desc Order.score_of Py.leb
                                (score_keywords (_filter_keywords raw))).
  exists raw, (skipn max_keywords sorted).
  split; [exact Hraw|]. split.
  - rewrite firstn_skipn. apply sorted_desc_permutation.
  - apply descending_best_first.
    apply sorted_desc_descending; [exact qleb_total|exact qleb_trans].
Qed.

Lemma keyword_output_keeps_best_witness :
  exists raw_keywords cut,
    GlobalState.raw_keywords Cases.two_keywords = Some raw_keywords
    /\ Permutation (Cases.two_scored ++ cut)
                   (score_keywords (_filter_keywords raw_keywords)).
Proof.
  destruct (keyword_output_keeps_best None Cases.two_keywords Cases.two_scored
                                      (or_introl eq_refl))
    as (raw & cut & Hraw & Hperm & _).
  exists raw, cut. split; assumption.
Defined.

End KeywordOutputTheorems.

(** ** Campaigns: bids, match types and the three reports *)

Section CampaignStructure.
Local Open Scope Q_scope.
Local Open Scope string_scope.
Import CampaignDesignerAgent.

Lemma dict_get_key {A} (key : A -> string) (l : list A) (k : string) (x : A) :
  Py.dict_get key l k = Some x -> key x = k.
Proof.
  unfold Py.dict_get. intro H. apply find_some in H.
  apply String.eqb_eq. exact (proj2 H).
Qed.

Lemma dict_get_found {A} (key : A -> string) (l : list A) (k : string) :
  (exists x, In x l /\ key x = k) ->
  exists y, Py.dict_get key l k = Some y.
Proof.
  intros (x & Hin & Hk). unfold Py.dict_get.
  destruct (find (fun y => key y =? k) (rev l)) as [y|] eqn:E; [eauto|].
  exfalso. apply in_rev in Hin.
  pose proof (find_none _ _ E x Hin) as Hn. cbv beta in Hn.
  apply String.eqb_eq in Hk. rewrite Hk in Hn. discriminate.
Qed.

Lemma lower_ascii_idempotent (c : ascii) :
  Py.lower_ascii (Py.lower_ascii c) = Py.lower_ascii c.
Proof.
  destruct c as [[] [] [] [] [] [] [] []]; reflexivity.
Qed.

Lemma lower_idempotent (s : string) : Py.lower (Py.lower s) = Py.lower s.
Proof.
  induction s as [|c s IH]; simpl; [reflexivity|].
  rewrite lower_ascii_idempotent, IH. reflexivity.
Qed.

(** X6.  Match types of an intent: always one or two distinct types with
    PHRASE among them, whatever the letter case of the intent; EXACT is added
    for brand and competitor, BROAD for transactional, commercial and
    high_intent, and nothing for any other intent. *)
Theorem match_types_of_intent (intent : string) :
  let types := _get_match_types intent in
  In "PHRASE" types
  /\ NoDup types
  /\ (1 <= List.length types <= 2)%nat
  /\ _get_match_types (Py.lower intent) = types
  /\ (In "EXACT" types
      <-> In (Py.lower intent) ["brand"; "competitor"])
  /\ (In "BROAD" types
      <-> In (Py.lower intent) ["transactional"; "commercial"; "high_intent"]).
Proof.
  cbv zeta. unfold _get_match_types. rewrite lower_idempotent.
  set (i := Py.lower intent).
  destruct (String.eqb_spec i "brand") as [E1|E1].
  { rewrite E1. simpl. repeat split; try (repeat constructor; simpl; intuition discriminate); try lia; intuition discriminate. }
  destruct (String.eqb_spec i "competitor") as [E2|E2].
  { rewrite E2. simpl. repeat split; try (repeat constructor; simpl; intuition discriminate); try lia; intuition discriminate. }
  cbn [existsb].
  destruct (String.eqb_spec i "transactional") as [E3|E3];
    [|destruct (String.eqb_spec i "commercial") as [E4|E4];
      [|destruct (String.eqb_spec i "high_intent") as [E5|E5]]];
    cbn [orb];
    (split; [simpl; auto|]);
    (split; [repeat constructor; simpl; intuition discriminate|]);
    (split; [simpl; lia|]);
    (split; [reflexivity|]);
    split; simpl; intuition (try discriminate; try congruence).
Qed.

Lemma dict_get_none {A} (key : A -> string) (l : list A) (k : string) :
  Py.dict_get key l k = None ->
  existsb (fun x => String.eqb (key x) k) l = false.
Proof.
  intro H. destruct (existsb _ l) eqn:E; [|reflexivity].
  apply existsb_exists in E. destruct E as (x & Hin & Hk).
  apply String.eqb_eq in Hk.
  destruct (dict_get_found key l k (ex_intro _ x (conj Hin Hk))) as [y Hy].
  congruence.
Qed.

Lemma dict_get_some {A} (key : A -> string) (l : list A) (k : string)
      (x : A) :
  Py.dict_get key l k = Some x ->
  existsb (fun x => String.eqb (key x) k) l = true.
Proof.
  intro H. apply existsb_exists. exists x. split.
  - unfold Py.dict_get in H. apply find_some in H. apply in_rev. tauto.
  - apply String.eqb_eq. exact (dict_get_key _ _ _ _ H).
Qed.

Lemma group_bids_keywords (state : GlobalState.t) (group : AdGroup.t) :
  map Bid.keyword (group_bids state group)
  = filter (Lookup.known state) (AdGroup.keywords group).
Proof.
  unfold group_bids. induction (AdGroup.keywords group) as [|k ks IH];
    [reflexivity|].
  cbn [flat_map filter]. rewrite map_app, IH. unfold Lookup.known at 2.
  destruct (Py.dict_get EnrichedKeyword.keyword_id _ k) as [e|] eqn:Ee.
  - rewrite (dict_get_some _ _ _ _ Ee).
    destruct (Py.dict_get RawKeyword.keyword _ k) as [r|] eqn:Er.
    + rewrite (dict_get_some _ _ _ _ Er). reflexivity.
    + rewrite (dict_get_none _ _ _ Er). reflexivity.
  - rewrite (dict_get_none _ _ _ Ee). reflexivity.
Qed.

(** X7.  The search campaign has one entry per ad group of the state, in the
    same order and with the same id and name; the bids of an entry are the
    group's keywords that occur in both the enriched and the raw keyword
    list, one bid each and in the group's order.  A keyword missing from
    either list gets no bid. *)
Theorem search_campaign_mirrors_ad_groups
        (state : GlobalState.t) (budget : Q) :
  let groups := or_empty (GlobalState.ad_groups state) in
  let entries := Campaign.ad_groups (_create_search_campaign state budget) in
  map AdGroupBids.ad_group_id entries = map AdGroup.id groups
  /\ map AdGroupBids.ad_group_name entries = map AdGroup.name groups
  /\ map (fun e => map Bid.keyword (AdGroupBids.keywords e)) entries
     = map (fun g => filter (Lookup.known state) (AdGroup.keywords g)) groups.
Proof.
  cbv zeta. unfold _create_search_campaign. cbn [Campaign.ad_groups].
  rewrite !map_map. cbn [AdGroupBids.ad_group_id AdGroupBids.ad_group_name
                         AdGroupBids.keywords].
  repeat split.
  apply map_ext. intro g. apply group_bids_keywords.
Qed.

Lemma report_keywords_shown (state : GlobalState.t) (ks : list string) :
  map Lookup.shown
      (flat_map
         (fun keyword_id =>
            match
              Py.dict_get EnrichedKeyword.keyword_id
                          (or_empty (GlobalState.enriched_keywords state))
                          keyword_id,
              Py.dict_get RawKeyword.keyword
                          (or_empty (GlobalState.raw_keywords state))
                          keyword_id
            with
            | Some enriched, Some raw =>
                [Report.mkSearchKeyword
                   keyword_id (EnrichedKeyword.intent enriched)
                   (RawKeyword.avg_monthly_searches raw)
                   (RawKeyword.suggested_bid raw)
                   (_get_match_types (EnrichedKeyword.intent enriched))]
            | _, _ => []
            end) ks)
  = map Lookup.bid_shown
        (group_bids state (AdGroup.mk "" "" ks [] 0)).
Proof.
  unfold group_bids. cbn [AdGroup.keywords].
  induction ks as [|k ks IH]; [reflexivity|].
  cbn [flat_map]. rewrite !map_app, IH. f_equal.
  destruct (Py.dict_get EnrichedKeyword.keyword_id _ k) as [e|];
    [destruct (Py.dict_get RawKeyword.keyword _ k) as [r|]|]; reflexivity.
Qed.

(** X8.  The search report and the search campaign agree: the report shows
    exactly the campaign's ad groups that have at least one bid, in order and
    under the same name, each with the keywords and match types of its bids;
    an ad group without bids is left out, so no reported group is empty.  The
    budget and the target ROAS are the campaign's. *)
Theorem search_report_matches_campaign
        (state : GlobalState.t) (budget : Q) :
  let campaign := _create_search_campaign state budget in
  let report := _format_search_campaign campaign state in
  map (fun g => (Report.sg_name g, map Lookup.shown (Report.sg_keywords g)))
      (Report.search_ad_groups report)
  = map (fun e => (AdGroupBids.ad_group_name e,
                   map Lookup.bid_shown (AdGroupBids.keywords e)))
        (filter (fun e => Lookup.nonempty (AdGroupBids.keywords e))
                (Campaign.ad_groups campaign))
  /\ (forall g, In g (Report.search_ad_groups report) ->
                Report.sg_keywords g <> [])
  /\ Report.search_budget_ report = budget
  /\ Report.search_target_roas report = target_roas_of state.
Proof.
  cbv zeta. unfold _format_search_campaign, _create_search_campaign.
  cbn [Campaign.ad_groups Campaign.budget Campaign.target_roas
       Report.search_ad_groups Report.search_budget_
       Report.search_target_roas].
  split; [|split; [|split; reflexivity]].
  - induction (or_empty (GlobalState.ad_groups state)) as [|g gs IH];
      [reflexivity|].
    cbn [flat_map map filter AdGroupBids.keywords]. rewrite map_app, IH.
    clear IH.
    pose proof (report_keywords_shown state (AdGroup.keywords g)) as H.
    change (group_bids state (AdGroup.mk "" "" (AdGroup.keywords g) [] 0))
      with (group_bids state g) in H.
    destruct (group_bids state g) as [|b bs];
      match type of H with
      | map _ ?l = _ => destruct l as [|k l']
      end; try discriminate H.
    + reflexivity.
    + cbn [Lookup.nonempty map app AdGroupBids.ad_group_name
           AdGroupBids.keywords Report.sg_name Report.sg_keywords].
      cbn [map] in H. rewrite H. reflexivity.
  - intros g Hin. apply in_flat_map in Hin. destruct Hin as (a & _ & Hin).
    match type of Hin with
    | In _ (match ?l with _ => _ end) => destruct l eqn:E
    end; [destruct Hin|].
    destruct Hin as [<-|[]]. discriminate.
Qed.

Lemma zleb_total (a b : Z) : (a <=? b)%Z = true \/ (b <=? a)%Z = true.
Proof.
  destruct (Z.leb_spec a b); [left; reflexivity|right].
  apply Z.leb_le. lia.
Qed.

Lemma zleb_trans (a b c : Z) :
  (a <=? b)%Z = true -> (b <=? c)%Z = true -> (a <=? c)%Z = true.
Proof.
  rewrite !Z.leb_le. lia.
Qed.

(** X9.  The shopping report bids on the keywords with the most monthly
    searches: at most 20 product bids (all keywords when there are fewer), in
    descending order of search volume, taken from the raw keyword list so
    that no keyword left out has more searches than one that is shown.  Each
    product bid uses the fixed target CPA 50.0, whatever target CPA the
    request asks for, and the request's target ROAS. *)
Theorem shopping_report_top_keywords
        (campaign : Campaign.t) (state : GlobalState.t) :
  let raw := or_empty (GlobalState.raw_keywords state) in
  let bids := Report.product_bids (_format_shopping_campaign campaign state) in
  List.length bids = Nat.min 20 (List.length raw)
  /\ Order.descending Report.pb_search_volume Z.leb bids
  /\ (exists kept cut,
        Permutation (kept ++ cut) raw
        /\ map Report.pb_keyword bids = map RawKeyword.keyword kept
        /\ map Report.pb_search_volume bids
           = map RawKeyword.avg_monthly_searches kept
        /\ Order.best_first RawKeyword.avg_monthly_searches Z.leb kept cut)
  /\ (forall b, In b bids ->
                Qeq (Report.pb_target_cpa b) 50
                /\ Report.pb_expected_roas b = target_roas_of state).
Proof.
  cbv zeta. unfold _format_shopping_campaign. cbn [Report.product_bids].
  set (raw := or_empty (GlobalState.raw_keywords state)).
  set (sorted := Py.sorted_desc RawKeyword.avg_monthly_searches Z.leb raw).
  split; [|split; [|split]].
  - rewrite length_map, length_firstn.
    unfold sorted.
    rewrite (Permutation_length
               (sorted_desc_permutation RawKeyword.avg_monthly_searches
                                        Z.leb raw)).
    reflexivity.
  - pose proof (descending_firstn RawKeyword.avg_monthly_searches Z.leb
                  20 sorted
                  (sorted_desc_descending _ _ zleb_total zleb_trans raw))
      as H.
    unfold Order.descending in *.
    induction H as [|x l Hs IH Hx]; cbn [map]; constructor.
    + exact IH.
    + apply Forall_map. exact Hx.
  - exists (firstn 20 sorted), (skipn 20 sorted).
    split; [|split; [|split]].
    + rewrite firstn_skipn. apply sorted_desc_permutation.
    + rewrite map_map. reflexivity.
    + rewrite map_map. reflexivity.
    + apply descending_best_first.
      apply (sorted_desc_descending _ _ zleb_total zleb_trans).
  - intros b Hin. apply in_map_iff in Hin. destruct Hin as (k & <- & _).
    split; reflexivity.
Qed.

(** X10.  The performance-max report never has an empty theme list.  With ad
    groups in the state it has one theme per group, in order, named after
    the group and holding the group's first ten keywords (all of them when
    the group has fewer); it carries the campaign's budget and target
    ROAS. *)
Theorem pmax_report_themes (campaign : Campaign.t) (state : GlobalState.t) :
  let groups := or_empty (GlobalState.ad_groups state) in
  let report := _format_pmax_campaign campaign state in
  Report.themes report <> []
  /\ (groups <> [] ->
      map Report.theme_name (Report.themes report)
      = map (fun g => AdGroup.name g ++ " Theme") groups
      /\ map Report.theme_keywords (Report.themes report)
         = map (fun g => firstn 10 (AdGroup.keywords g)) groups)
  /\ (forall t, In t (Report.themes report) ->
                (List.length (Report.theme_keywords t) <= 10)%nat)
  /\ Report.pmax_budget_ report = Campaign.budget campaign
  /\ Report.pmax_target_roas report = Campaign.target_roas campaign.
Proof.
  cbv zeta. unfold _format_pmax_campaign.
  cbn [Report.themes Report.pmax_budget_ Report.pmax_target_roas].
  destruct (or_empty (GlobalState.ad_groups state)) as [|g gs].
  - cbn [map]. split; [discriminate|]. split; [congruence|].
    split; [|split; reflexivity].
    intros t [<-|[<-|[]]]; simpl; lia.
  - assert (H : forall l : list Report.Theme,
               l <> [] ->
               match l with [] => default_themes | _ :: _ => l end = l)
      by (intros [|] ?; congruence).
    rewrite H by (cbn [map]; discriminate). clear H.
    split; [cbn [map]; discriminate|].
    split; [|split; [|split; reflexivity]].
    + intros _. rewrite !map_map. split; reflexivity.
    + intros t Hin. apply in_map_iff in Hin. destruct Hin as (x & <- & _).
      cbn [Report.theme_keywords]. rewrite length_firstn. lia.
Qed.

Lemma list_sum_length_concat {A} (ls : list (list A)) :
  list_sum (map (@List.length A) ls) = List.length (List.concat ls).
Proof.
  induction ls as [|l ls IH]; [reflexivity|].
  cbn [map List.concat]. rewrite length_app, <- IH. reflexivity.
Qed.

(** X11.  The number of keywords named in the report summary is the number
    of members of all ad groups; the search campaign never holds more bids
    than that, since it bids at most once on each member. *)
Theorem summary_counts_all_members (state : GlobalState.t) (budget : Q) :
  _count_total_keywords state
  = List.length (Spec.members (Spec.groups_of state))
  /\ (List.length (Spec.bids (_create_search_campaign state budget))
      <= _count_total_keywords state)%nat.
Proof.
  assert (E : _count_total_keywords state
              = List.length (Spec.members (Spec.groups_of state))).
  { unfold _count_total_keywords, Spec.groups_of, Spec.members.
    destruct (GlobalState.ad_groups state) as [[|g gs]|]; try reflexivity.
    rewrite <- list_sum_length_concat, map_map. reflexivity. }
  split; [exact E|]. rewrite E.
  unfold Spec.bids, _create_search_campaign, Spec.groups_of, Spec.members,
    or_empty.
  cbn [Campaign.ad_groups].
  destruct (GlobalState.ad_groups state) as [groups|]; [|apply le_n].
  induction groups as [|g gs IH]; [apply le_n|].
  cbn [map flat_map List.concat AdGroupBids.keywords].
  rewrite !length_app.
  assert (Hg : (List.length (group_bids state g)
                <= List.length (AdGroup.keywords g))%nat).
  { rewrite <- (length_map Bid.keyword), group_bids_keywords.
    induction (AdGroup.keywords g) as [|k ks IHk]; [apply le_n|].
    cbn [filter]. destruct (Lookup.known state k); cbn [List.length]; lia. }
  lia.
Qed.

End CampaignStructure.

(** ** The embedding map written by the vector node *)

Section DictSet.
Context {V : Type}.

Lemma dict_set_keys (d : list (string * V)) (k : string) (v : V) (k' : string) :
  In k' (map fst (PyText.dict_set d k v)) <-> In k' (map fst d) \/ k' = k.
Proof.
  induction d as [|[a b] d IH]; cbn [PyText.dict_set map fst In].
  - intuition.
  - destruct (String.eqb_spec a k) as [->|Hne]; cbn [map fst In].
    + intuition.
    + rewrite IH. intuition.
Qed.

Lemma dict_set_NoDup (d : list (string * V)) (k : string) (v : V) :
  NoDup (map fst d) -> NoDup (map fst (PyText.dict_set d k v)).
Proof.
  induction d as [|[a b] d IH]; cbn [PyText.dict_set map fst]; intro H.
  - repeat constructor. intros [].
  - inversion H as [|? ? Hnotin Hd]; subst.
    destruct (String.eqb_spec a k) as [->|Hne]; cbn [map fst].
    + constructor; assumption.
    + constructor; [|apply IH; exact Hd].
      rewrite dict_set_keys. intros [Hin|Heq]; [exact (Hnotin Hin)|].
      exact (Hne Heq).
Qed.

Lemma dict_set_In (d : list (string * V)) (k : string) (v : V)
      (k' : string) (v' : V) :
  In (k', v') (PyText.dict_set d k v) ->
  In (k', v') d \/ (k', v') = (k, v).
Proof.
  induction d as [|[a b] d IH]; cbn [PyText.dict_set In].
  - intuition.
  - destruct (String.eqb_spec a k) as [->|Hne]; cbn [In].
    + intros [H|H]; [right; symmetry; exact H|left; right; exact H].
    + intros [H|H]; [left; left; exact H|].
      destruct (IH H) as [H'|H']; [left; right; exact H'|right; exact H'].
Qed.

Lemma dict_set_length (d : list (string * V)) (k : string) (v : V) :
  (List.length (PyText.dict_set d k v) <= S (List.length d))%nat.
Proof.
  induction d as [|[a b] d IH]; cbn [PyText.dict_set List.length].
  - apply le_n.
  - destruct (a =? k)%string; cbn [List.length]; lia.
Qed.

End DictSet.

Section Embeddings.
Local Open Scope string_scope.
Import VectorManager.

Variable _generate_vector : string -> list Q.

Lemma embeddings_fold (raw_keywords : list RawKeyword.t)
      (acc : list (string * list Q)) :
  NoDup (map fst acc) ->
  (forall k v, In (k, v) acc -> v = _generate_vector k) ->
  let e :=
    fold_left
      (fun embeddings_for_state kw =>
         PyText.dict_set embeddings_for_state (RawKeyword.keyword kw)
                         (_generate_vector (RawKeyword.keyword kw)))
      raw_keywords acc in
  NoDup (map fst e)
  /\ (forall k, In k (map fst e)
                <-> In k (map fst acc)
                    \/ In k (map RawKeyword.keyword raw_keywords))
  /\ (forall k v, In (k, v) e -> v = _generate_vector k)
  /\ (List.length e <= List.length acc + List.length raw_keywords)%nat.
Proof.
  revert acc. induction raw_keywords as [|kw rest IH]; intros acc Hnd Hval.
  - cbn. split; [exact Hnd|]. split; [intuition|]. split; [exact Hval|lia].
  - cbn [fold_left].
    destruct (IH (PyText.dict_set acc (RawKeyword.keyword kw)
                                  (_generate_vector (RawKeyword.keyword kw))))
      as (H1 & H2 & H3 & H4).
    + apply dict_set_NoDup. exact Hnd.
    + intros k v Hin. destruct (dict_set_In _ _ _ _ _ Hin) as [H|H].
      * exact (Hval k v H).
      * injection H as -> ->. reflexivity.
    + cbv zeta. split; [exact H1|]. split; [|split; [exact H3|]].
      * intro k. rewrite H2, dict_set_keys. cbn [map In]. intuition.
      * pose proof (dict_set_length acc (RawKeyword.keyword kw)
                      (_generate_vector (RawKeyword.keyword kw))).
        cbn [List.length]. lia.
Qed.

Lemma apply_embeddings (state : GlobalState.t) (e : list (string * list Q)) :
  let state' := Patch.apply state [Patch.embeddings e] in
  GlobalState.embeddings state' = e
  /\ GlobalState.error_log state' = GlobalState.error_log state
  /\ GlobalState.raw_keywords state' = GlobalState.raw_keywords state
  /\ GlobalState.enriched_keywords state'
     = GlobalState.enriched_keywords state
  /\ GlobalState.clustering_attempts state'
     = GlobalState.clustering_attempts state
  /\ GlobalState.ad_groups state' = GlobalState.ad_groups state
  /\ GlobalState.initial_request state' = GlobalState.initial_request state.
Proof. destruct state. repeat split. Qed.

(** X12.  The embedding map holds one entry per distinct keyword of the raw
    list: its keys are pairwise different, they are exactly the keywords
    that occur in the list, and every value is the encoder's vector for its
    key.  The vector store is handed one row per element of the list, so a
    keyword listed twice is stored twice but embedded once. *)
Theorem embeddings_one_per_distinct_keyword
        (raw_keywords : list RawKeyword.t) :
  let e := embeddings_for _generate_vector raw_keywords in
  NoDup (map fst e)
  /\ (forall k, In k (map fst e)
                <-> In k (map RawKeyword.keyword raw_keywords))
  /\ (forall k v, In (k, v) e -> v = _generate_vector k)
  /\ (List.length e <= List.length raw_keywords)%nat
  /\ map row_id (rows_for _generate_vector raw_keywords)
     = map RawKeyword.keyword raw_keywords.
Proof.
  cbv zeta. unfold embeddings_for.
  destruct (embeddings_fold raw_keywords []) as (H1 & H2 & H3 & H4).
  - constructor.
  - intros k v [].
  - split; [exact H1|]. split; [|split; [exact H3|split; [exact H4|]]].
    + intro k. rewrite H2. cbn. intuition.
    + unfold rows_for. rewrite map_map. reflexivity.
Qed.

Variable upsert_keywords : string -> list Row -> Py.Result unit.
Variable fit_predict : list (list Q) -> ClusteringAgent.Fit.
Variable set_iter : list Z -> list Z.
Variable _generate_group_name : list string -> string.

(** X13.  The vector node followed by the cluster builder.  When the raw
    keyword list is not empty, the vector store accepts the rows, the encoder
    gives vectors of one length, the clusterer labels every row and set
    iteration visits each label once, then both nodes return and every
    keyword of the raw list is a member of the ad groups exactly once (a
    keyword listed twice is still a member once). *)
Theorem embedded_keywords_are_partitioned
        (state : GlobalState.t) (kw : RawKeyword.t)
        (rest : list RawKeyword.t) :
  GlobalState.raw_keywords state = Some (kw :: rest) ->
  upsert_keywords (GlobalState.job_id state)
                  (rows_for _generate_vector (kw :: rest)) = Py.Ok tt ->
  (forall k k',
      List.length (_generate_vector k) = List.length (_generate_vector k')) ->
  (forall s, Spec.labels_every_row fit_predict s) ->
  Spec.enumerates_set set_iter ->
  exists patch update groups,
    VectorManager.__call__ _generate_vector upsert_keywords state
    = Py.Ok patch
    /\ ClusteringAgent.__call__ fit_predict set_iter _generate_group_name
                                (Patch.apply state patch)
       = Py.Ok update
    /\ GlobalState.ad_groups
         (Update.apply (Patch.apply state patch) update) = Some groups
    /\ NoDup (Spec.members groups)
    /\ (forall k, In k (Spec.members groups)
                  <-> In k (map RawKeyword.keyword (kw :: rest))).
Proof.
  intros Hraw Hstore Hdim Hlabels Hset.
  set (e := embeddings_for _generate_vector (kw :: rest)).
  set (state1 := Patch.apply state [Patch.embeddings e]).
  destruct (apply_embeddings state e) as (He & _).
  destruct (embeddings_fold (kw :: rest) []) as (Hnd & Hkeys & Hval & _);
    [constructor|intros k v []|].
  fold (embeddings_for _generate_vector (kw :: rest)) in Hnd, Hkeys, Hval.
  fold e in Hnd, Hkeys, Hval.
  assert (Hsame : Spec.same_dimension state1).
  { intros v w Hv Hw. unfold state1 in Hv, Hw. rewrite He in Hv, Hw.
    apply in_map_iff in Hv. destruct Hv as ([kv v'] & <- & Hv).
    apply in_map_iff in Hw. destruct Hw as ([kw' w'] & <- & Hw).
    cbn [snd]. rewrite (Hval _ _ Hv), (Hval _ _ Hw). apply Hdim. }
  destruct (call_partitions fit_predict set_iter _generate_group_name state1
                            Hsame (Hlabels state1) Hset)
    as (update & groups & Hcall & Hgroups & Hperm).
  exists [Patch.embeddings e], update, groups.
  split.
  { unfold VectorManager.__call__. rewrite Hraw, Hstore. reflexivity. }
  split; [exact Hcall|]. split; [exact Hgroups|].
  assert (Hids : Spec.keyword_ids state1 = map fst e).
  { unfold Spec.keyword_ids, state1. rewrite He. reflexivity. }
  rewrite Hids in Hperm. split.
  - exact (Permutation_NoDup (Permutation_sym Hperm) Hnd).
  - intro k. split; intro H.
    + apply (Permutation_in k Hperm) in H. apply Hkeys in H.
      destruct H as [[]|H]. exact H.
    + apply (Permutation_in k (Permutation_sym Hperm)). apply Hkeys.
      right. exact H.
Qed.

End Embeddings.

Lemma embedded_keywords_are_partitioned_witness :
  exists patch update groups,
    VectorManager.__call__ Cases.encoder Cases.store_ok Cases.two_keywords
    = Py.Ok patch
    /\ ClusteringAgent.__call__ Cases.fit_one_cluster Scenario.set_iter
                                Scenario.group_name
                                (Patch.apply Cases.two_keywords patch)
       = Py.Ok update
    /\ GlobalState.ad_groups
         (Update.apply (Patch.apply Cases.two_keywords patch) update)
       = Some groups
    /\ NoDup (Spec.members groups)
    /\ (forall k, In k (Spec.members groups)
                  <-> In k ["cheap shoes"; "buy shoes"]%string).
Proof.
  apply (embedded_keywords_are_partitioned
           Cases.encoder Cases.store_ok Cases.fit_one_cluster
           Scenario.set_iter Scenario.group_name
           Cases.two_keywords Scenario.cheap_shoes [Scenario.buy_shoes]).
  - reflexivity.
  - reflexivity.
  - reflexivity.
  - intros s labels p H. injection H as <- _. left.
    rewrite repeat_length, length_map. reflexivity.
  - exact nodup_enumerates.
Defined.

(** ** The clustering cycle under any step budget *)

Section Cycle.
Local Open Scope string_scope.
Import ClusteringAgent WorkflowBuilder.

Variable fit_predict : list (list Q) -> Fit.
Variable set_iter : list Z -> list Z.
Variable _generate_group_name : list string -> string.

Lemma cluster_keywords_step (state : GlobalState.t) :
  Spec.same_dimension state ->
  Spec.labels_every_row fit_predict state ->
  Spec.enumerates_set set_iter ->
  (forall e, fit_predict (map snd (GlobalState.embeddings state)) <> Failed e) ->
  exists state' groups,
    cluster_keywords fit_predict set_iter _generate_group_name state
    = Py.Ok state'
    /\ GlobalState.clustering_attempts state'
       = (GlobalState.clustering_attempts state + 1)%Z
    /\ GlobalState.embeddings state' = GlobalState.embeddings state
    /\ GlobalState.ad_groups state' = Some groups
    /\ Permutation (Spec.members groups) (Spec.keyword_ids state)
    /\ Frame.untouched state state'.
Proof.
  intros Hdim Hlabels Hset Hfit.
  destruct (call_partitions fit_predict set_iter _generate_group_name state
                            Hdim Hlabels Hset)
    as (update & groups & Hcall & Hgroups & Hperm).
  destruct (call_counts_attempt fit_predict set_iter _generate_group_name
                                state update Hfit Hcall) as [groups' ->].
  destruct (apply_groups_attempts
              state groups' (GlobalState.clustering_attempts state + 1))
    as (_ & Ha & He).
  eexists. exists groups. unfold cluster_keywords. rewrite Hcall.
  split; [reflexivity|]. split; [exact Ha|]. split; [exact He|].
  split; [exact Hgroups|]. split; [exact Hperm|].
  destruct state. repeat split.
Qed.

Lemma untouched_trans (s1 s2 s3 : GlobalState.t) :
  Frame.untouched s1 s2 -> Frame.untouched s2 s3 -> Frame.untouched s1 s3.
Proof.
  unfold Frame.untouched.
  intros (A1 & A2 & A3 & A4 & A5) (B1 & B2 & B3 & B4 & B5).
  repeat split; congruence.
Qed.

Lemma clustering_cycle (budget : nat) (state : GlobalState.t) :
  (3 <= budget)%nat ->
  Spec.same_dimension state ->
  Spec.labels_every_row fit_predict state ->
  Spec.enumerates_set set_iter ->
  (forall e, fit_predict (map snd (GlobalState.embeddings state)) <> Failed e) ->
  (0 <= GlobalState.clustering_attempts state)%Z ->
  exists state' n groups,
    clustering_loop fit_predict set_iter _generate_group_name budget 0 state
    = Py.Ok (Some (state', n))
    /\ (1 <= n <= 3)%nat
    /\ _should_recluster state' = continue_processing
    /\ GlobalState.clustering_attempts state'
       = (GlobalState.clustering_attempts state + Z.of_nat n)%Z
    /\ GlobalState.ad_groups state' = Some groups
    /\ Permutation (Spec.members groups) (Spec.keyword_ids state)
    /\ Frame.untouched state state'.
Proof.
  intros Hbudget Hdim Hlabels Hset Hfit Hatt.
  destruct budget as [|[|[|budget]]]; try lia. clear Hbudget.
  assert (Hinv : forall s,
             Frame.untouched state s ->
             Spec.same_dimension s
             /\ Spec.labels_every_row fit_predict s
             /\ (forall e, fit_predict (map snd (GlobalState.embeddings s))
                           <> Failed e)
             /\ Spec.keyword_ids s = Spec.keyword_ids state).
  { intros s (_ & _ & _ & _ & E).
    unfold Spec.same_dimension, Spec.labels_every_row, Spec.keyword_ids.
    rewrite E. auto. }
  destruct (cluster_keywords_step state Hdim Hlabels Hset Hfit)
    as (s1 & g1 & Hs1 & Ha1 & _ & Hg1 & Hp1 & Hu1).
  cbn [clustering_loop]. rewrite Hs1. cbn [Py.bind].
  destruct (_should_recluster s1) eqn:R1;
    [|exists s1, 1%nat, g1;
      repeat (split; [first [reflexivity|assumption|lia]|]); assumption].
  destruct (Hinv s1 Hu1) as (Hd1 & Hl1 & Hf1 & Hk1).
  destruct (cluster_keywords_step s1 Hd1 Hl1 Hset Hf1)
    as (s2 & g2 & Hs2 & Ha2 & _ & Hg2 & Hp2 & Hu2).
  rewrite Hs2. cbn [Py.bind]. rewrite Hk1 in Hp2.
  pose proof (untouched_trans _ _ _ Hu1 Hu2) as Hu12.
  destruct (_should_recluster s2) eqn:R2;
    [|exists s2, 2%nat, g2;
      repeat (split; [first [reflexivity|assumption|lia]|]); assumption].
  destruct (Hinv s2 Hu12) as (Hd2 & Hl2 & Hf2 & Hk2).
  destruct (cluster_keywords_step s2 Hd2 Hl2 Hset Hf2)
    as (s3 & g3 & Hs3 & Ha3 & _ & Hg3 & Hp3 & Hu3).
  rewrite Hs3. cbn [Py.bind]. rewrite Hk2 in Hp3.
  pose proof (untouched_trans _ _ _ Hu12 Hu3) as Hu123.
  assert (R3 : _should_recluster s3 = continue_processing)
    by (apply gate_continues_at_three; lia).
  rewrite R3.
  exists s3, 3%nat, g3.
  repeat (split; [first [reflexivity|assumption|lia]|]). assumption.
Qed.

(** X14.  Without a fault of the clusterer the cycle ends under every step
    budget of at least three: the builder runs one to three times, the gate
    then answers [continue], the attempt counter has grown by the number of
    runs, the embeddings are untouched, and the ad groups left in the state
    hold every embedded keyword exactly as often as the embedding map
    does. *)
Theorem clustering_cycle_settles (budget : nat) (state : GlobalState.t) :
  (3 <= budget)%nat ->
  Spec.same_dimension state ->
  Spec.labels_every_row fit_predict state ->
  Spec.enumerates_set set_iter ->
  (forall e, fit_predict (map snd (GlobalState.embeddings state)) <> Failed e) ->
  (0 <= GlobalState.clustering_attempts state)%Z ->
  exists state' n groups,
    clustering_loop fit_predict set_iter _generate_group_name budget 0 state
    = Py.Ok (Some (state', n))
    /\ (1 <= n <= 3)%nat
    /\ _should_recluster state' = continue_processing
    /\ GlobalState.clustering_attempts state'
       = (GlobalState.clustering_attempts state + Z.of_nat n)%Z
    /\ GlobalState.embeddings state' = GlobalState.embeddings state
    /\ GlobalState.ad_groups state' = Some groups
    /\ Permutation (Spec.members groups) (Spec.keyword_ids state).
Proof.
  intros Hbudget Hdim Hlabels Hset Hfit Hatt.
  destruct (clustering_cycle budget state Hbudget Hdim Hlabels Hset Hfit Hatt)
    as (state' & n & groups & Hrun & Hn & Hgate & Ha & Hg & Hp & Hu).
  exists state', n, groups.
  destruct Hu as (_ & _ & _ & _ & He). auto 10.
Qed.

End Cycle.

Lemma clustering_cycle_settles_witness :
  exists state' n groups,
    WorkflowBuilder.clustering_loop
      Scenario.fit_two_and_noise Scenario.set_iter Scenario.group_name
      50 0 (Scenario.clustering_state 0)
    = Py.Ok (Some (state', n))
    /\ (1 <= n <= 3)%nat
    /\ WorkflowBuilder._should_recluster state'
       = WorkflowBuilder.continue_processing
    /\ GlobalState.clustering_attempts state' = (0 + Z.of_nat n)%Z
    /\ GlobalState.embeddings state' = Scenario.three_embeddings
    /\ GlobalState.ad_groups state' = Some groups
    /\ Permutation (Spec.members groups)
                   ["red shoes"; "blue shoes"; "garden hose"]%string.
Proof.
  apply (clustering_cycle_settles
           Scenario.fit_two_and_noise Scenario.set_iter Scenario.group_name
           50 (Scenario.clustering_state 0)).
  - lia.
  - exact (three_same_dimension 0).
  - intros labels p H. injection H as <- _. left. reflexivity.
  - exact nodup_enumerates.
  - intros e H. discriminate H.
  - simpl. lia.
Defined.

(** ** Naming an ad group *)

Section Naming.
Local Open Scope string_scope.

Lemma append_nonempty (s t : string) : t <> "" -> s ++ t <> "".
Proof.
  intro H. destruct s; [exact H|discriminate].
Qed.

(** X15.  The fallback name of a non-empty keyword list is never the empty
    string and depends on the first keyword only, and only up to letter
    case; a first keyword that mentions [buy] is named [Purchase Intent]
    whatever else it mentions. *)
Theorem fallback_name_of_first_keyword (first : string) (rest : list string) :
  let name := FallbackNaming.generate_group_name (first :: rest) in
  name <> ""
  /\ name = FallbackNaming.generate_group_name [Py.lower first]
  /\ (Py.contains "buy" (Py.lower first) = true -> name = "Purchase Intent").
Proof.
  cbv zeta. unfold FallbackNaming.generate_group_name.
  rewrite lower_idempotent.
  split; [|split; [reflexivity|]].
  - repeat match goal with
           | |- (if ?c then _ else _) <> _ => destruct c
           end; try discriminate; apply append_nonempty; discriminate.
  - intro H. unfold FallbackNaming.mentions at 1,
               FallbackNaming.purchase_words.
    cbn [Py.any existsb map]. rewrite H. reflexivity.
Qed.

Lemma remove_char_absent (c : ascii) (s : string) :
  ~ In c (list_ascii_of_string (PyText.remove_char c s)).
Proof.
  induction s as [|a s IH]; cbn [PyText.remove_char].
  - intros [].
  - destruct (Ascii.eqb_spec a c) as [->|Hne]; [exact IH|].
    cbn [list_ascii_of_string In]. intros [H|H]; [exact (Hne H)|exact (IH H)].
Qed.

Variable cache_get : string -> option string.
Variable chat_completion : string -> Py.Result string.

(** X16.  The name the cluster builder gives a group is the fallback's name
    (when the keyword list is empty or the model call raised) or a text
    without any double quote.  A non-empty cached answer decides the name
    alone: the model is not consulted, so its answer or failure does not
    matter. *)
Theorem group_name_sources (keywords : list string) :
  let name :=
    GroupNaming._generate_group_name cache_get chat_completion keywords in
  (name = FallbackNaming.generate_group_name keywords
   \/ ~ In PyText.double_quote (list_ascii_of_string name))
  /\ (forall cached other_completion,
         keywords <> [] ->
         cached <> "" ->
         cache_get (GroupNaming.prompt_for keywords) = Some cached ->
         GroupNaming._generate_group_name cache_get other_completion keywords
         = GroupNaming.clean cached).
Proof.
  cbv zeta. split.
  - unfold GroupNaming._generate_group_name.
    destruct keywords as [|k ks]; [left; reflexivity|].
    destruct (cache_get _) as [[|c s]|].
    + destruct (chat_completion _); [right|left; reflexivity].
      apply remove_char_absent.
    + right. apply remove_char_absent.
    + destruct (chat_completion _); [right|left; reflexivity].
      apply remove_char_absent.
  - intros cached other Hk Hc Hget.
    unfold GroupNaming._generate_group_name.
    destruct keywords as [|k ks]; [contradiction|].
    rewrite Hget. destruct cached; [contradiction|reflexivity].
Qed.

End Naming.

(** ** A run that finds no keywords *)

Section EmptyRun.
Local Open Scope string_scope.

Variable fetch_keyword_ideas : list string -> Py.Result (list RawKeyword.t).
Variable raised : option string.
Variable enrich_batch : list RawKeyword.t -> list EnrichedKeyword.t.
Variable _generate_vector : string -> list Q.
Variable upsert_keywords : string -> list VectorManager.Row -> Py.Result unit.
Variable fit_predict : list (list Q) -> ClusteringAgent.Fit.
Variable set_iter : list Z -> list Z.
Variable _generate_group_name : list string -> string.

(** X17.  A run that reaches [fetch_keywords] with no seed keywords, no raw
    keywords and no embeddings still finishes, under any step budget of at
    least one and whatever the collaborators would do: no node raises, three
    entries are appended to the error log (one each by the fetch node, the
    keyword stage and the vector node), the cluster builder runs once and
    leaves no ad groups, and the campaign stage writes no campaigns and the
    summary-only report.  Since a report exists, the workflow manager
    answers [success], with all three campaign sections at their default. *)
Theorem run_without_keywords (budget : nat) (state : GlobalState.t) :
  (1 <= budget)%nat ->
  GlobalState.seed_keywords state = None
  \/ GlobalState.seed_keywords state = Some [] ->
  GlobalState.raw_keywords state = None
  \/ GlobalState.raw_keywords state = Some [] ->
  GlobalState.embeddings state = [] ->
  exists final,
    Pipeline.run_from_fetch fetch_keyword_ideas raised enrich_batch
                            _generate_vector upsert_keywords fit_predict
                            set_iter _generate_group_name budget state
    = Py.Ok (Some final)
    /\ GlobalState.error_log final
       = (GlobalState.error_log state
            ++ ["No seed keywords were generated to fetch.";
                match raised with
                | Some e => e
                | None => "No keywords to process"
                end;
                "No keywords to vectorize"])%list
    /\ GlobalState.clustering_attempts final
       = (GlobalState.clustering_attempts state + 1)%Z
    /\ GlobalState.enriched_keywords final = Some []
    /\ GlobalState.ad_groups final = Some []
    /\ GlobalState.campaigns final = Some []
    /\ GlobalState.final_report final
       = Some (Report.SummaryOnly "No ad groups to process.")
    /\ (forall job_id,
           WorkflowManager.execute_workflow
             (WorkflowManager.builder_execute_workflow job_id (Py.Ok final))
           = WorkflowManager.success
               (WorkflowManager.mkFormatted None None None)).
Proof.
  intros Hbudget Hseeds Hraw Hemb.
  destruct budget as [|budget]; [lia|]. clear Hbudget.
  destruct state as [req job log att brand comp seeds raw enr emb grp
                         pmax shop cmp srch rep].
  cbn [GlobalState.seed_keywords GlobalState.raw_keywords
       GlobalState.embeddings GlobalState.error_log
       GlobalState.clustering_attempts] in *.
  subst emb.
  assert (Hlog : forall a b c : string,
             (((log ++ [a]) ++ [b]) ++ [c] = log ++ [a; b; c])%list)
    by (intros; rewrite <- !app_assoc; reflexivity).
  destruct Hseeds as [-> | ->]; destruct Hraw as [-> | ->];
    destruct raised as [e|];
    (eexists; split; [reflexivity|]);
    cbn; rewrite Hlog; repeat split.
Qed.

End EmptyRun.

Lemma run_without_keywords_witness :
  exists final,
    Pipeline.run_from_fetch Cases.source_down None Cases.no_enrichment
                            Cases.encoder Cases.store_down
                            Scenario.failing_fit Scenario.set_iter
                            Scenario.group_name 50 Cases.no_seeds
    = Py.Ok (Some final)
    /\ GlobalState.error_log final
       = ["No seed keywords were generated to fetch.";
          "No keywords to process";
          "No keywords to vectorize"]%string
    /\ GlobalState.final_report final
       = Some (Report.SummaryOnly "No ad groups to process.").
Proof.
  destruct (run_without_keywords
              Cases.source_down None Cases.no_enrichment Cases.encoder
              Cases.store_down Scenario.failing_fit Scenario.set_iter
              Scenario.group_name 50 Cases.no_seeds)
    as (final & Hrun & Hlog & _ & _ & _ & _ & Hreport & _).
  - lia.
  - left. reflexivity.
  - left. reflexivity.
  - reflexivity.
  - exists final. split; [exact Hrun|]. split; [exact Hlog|exact Hreport].
Defined.

(** ** What the caller is told about a run *)

Section Responses.
Local Open Scope Q_scope.
Local Open Scope string_scope.
Import WorkflowManager.

(** X18.  The workflow manager answers [success] exactly when the builder
    returned a report; the error log and the job id play no part in a
    success answer, and the performance-max section it passes on is the one
    the report holds, if any. *)
Theorem manager_success_iff_report (result_dict : BuilderResult) :
  ((exists formatted, execute_workflow result_dict = success formatted)
   <-> exists job_id report errors,
         result_dict = builder_success job_id (Some report) errors)
  /\ (forall job_id job_id' report errors errors',
         execute_workflow (builder_success job_id (Some report) errors)
         = execute_workflow (builder_success job_id' (Some report) errors'))
  /\ (forall report,
         pmax_campaign (format_results report)
         = Report.get_pmax_campaign report).
Proof.
  split; [|split].
  - split.
    + intros [formatted H].
      destruct result_dict as [job [report|] errors|error job];
        try discriminate H; eauto.
    + intros (job & report & errors & ->). eexists. reflexivity.
  - reflexivity.
  - intros [summary|summary s sh p b]; reflexivity.
Qed.

(** X19.  Once the campaign stage has run, the run is reported as a success:
    the state it leaves always holds a report.  Without ad groups all three
    sections of the answer are at their default; with ad groups they are the
    three formatted campaigns, built on 50%, 30% and 20% of the monthly
    budget. *)
Theorem finished_run_is_success (state : GlobalState.t) (job_id : string) :
  let final := Update.apply state (CampaignDesignerAgent.__call__ state) in
  let total :=
    Request.get
      (Request.monthly_budget (GlobalState.initial_request state)) 0.0 in
  exists formatted,
    execute_workflow (builder_execute_workflow job_id (Py.Ok final))
    = success formatted
    /\ (Lookup.nonempty
          (CampaignDesignerAgent.or_empty (GlobalState.ad_groups state))
        = false ->
        formatted = mkFormatted None None None)
    /\ (Lookup.nonempty
          (CampaignDesignerAgent.or_empty (GlobalState.ad_groups state))
        = true ->
        formatted
        = mkFormatted
            (Some (CampaignDesignerAgent._format_search_campaign
                     (CampaignDesignerAgent._create_search_campaign
                        state (total * 0.5)) state))
            (Some (CampaignDesignerAgent._format_shopping_campaign
                     (CampaignDesignerAgent._create_shopping_campaign
                        state (total * 0.3)) state))
            (Some (CampaignDesignerAgent._format_pmax_campaign
                     (CampaignDesignerAgent._create_pmax_campaign
                        state (total * 0.2)) state))).
Proof.
  cbv zeta. unfold CampaignDesignerAgent.__call__.
  destruct state as [req job log att brand comp seeds raw enr emb grp
                         pmax shop cmp srch rep].
  cbn [GlobalState.ad_groups GlobalState.initial_request].
  destruct grp as [[|g gs]|]; eexists;
    (split; [reflexivity|]);
    (split; cbn [CampaignDesignerAgent.or_empty Lookup.nonempty];
     intro H; try discriminate H; reflexivity).
Qed.

End Responses.

(** ** What can raise before clustering *)

Section StoreFailure.
Local Open Scope string_scope.

Lemma update_apply_job_id (u : Update.t) (s : GlobalState.t) :
  GlobalState.job_id (Update.apply s u) = GlobalState.job_id s.
Proof.
  unfold Update.apply. revert s. induction u as [|e u IH]; intro s;
    [reflexivity|].
  cbn [fold_left]. rewrite IH. destruct s, e; reflexivity.
Qed.

Lemma patch_apply_job_id (u : Patch.t) (s : GlobalState.t) :
  GlobalState.job_id (Patch.apply s u) = GlobalState.job_id s.
Proof.
  unfold Patch.apply. revert s. induction u as [|e u IH]; intro s;
    [reflexivity|].
  cbn [fold_left]. rewrite IH. destruct s, e as [[]| | |]; reflexivity.
Qed.

Variable fetch_keyword_ideas : list string -> Py.Result (list RawKeyword.t).
Variable raised : option string.
Variable enrich_batch : list RawKeyword.t -> list EnrichedKeyword.t.
Variable _generate_vector : string -> list Q.
Variable upsert_keywords : string -> list VectorManager.Row -> Py.Result unit.
Variable fit_predict : list (list Q) -> ClusteringAgent.Fit.
Variable set_iter : list Z -> list Z.
Variable _generate_group_name : list string -> string.

(** X20.  Of the four nodes from [fetch_keywords] to [manage_vectors] only
    the vector store can make the run raise (the sentence encoder being one
    that returns a vector for every keyword): if that part of the graph
    raises, the vector store raised that exception on a non-empty batch of
    rows for this job.  No node catches it, so the run ends there under
    every step budget, and the workflow manager answers [failed] with the
    store's message. *)
Theorem only_the_store_raises_before_clustering
        (state : GlobalState.t) (e : string) :
  Pipeline.before_clustering fetch_keyword_ideas raised enrich_batch
                             _generate_vector upsert_keywords state
  = Py.Raise e ->
  (exists rows,
      rows <> []
      /\ upsert_keywords (GlobalState.job_id state) rows = Py.Raise e)
  /\ (forall budget,
         Pipeline.run_from_fetch fetch_keyword_ideas raised enrich_batch
                                 _generate_vector upsert_keywords fit_predict
                                 set_iter _generate_group_name budget state
         = Py.Raise e)
  /\ (forall job_id,
         WorkflowManager.execute_workflow
           (WorkflowManager.builder_execute_workflow job_id (Py.Raise e))
         = WorkflowManager.failed e).
Proof.
  intro H. split; [|split].
  - unfold Pipeline.before_clustering in H. cbv zeta in H.
    match type of H with
    | Py.bind (VectorManager.__call__ _ _ ?s) _ = _ =>
        set (s3 := s) in H;
        assert (Hjob : GlobalState.job_id s3 = GlobalState.job_id state)
          by (unfold s3;
              rewrite patch_apply_job_id, !update_apply_job_id; reflexivity)
    end.
    unfold VectorManager.__call__ in H.
    destruct (GlobalState.raw_keywords s3) as [[|kw rest]|];
      try discriminate H.
    rewrite Hjob in H.
    destruct (upsert_keywords _ _) as [[]|e'] eqn:Hstore;
      [discriminate H|].
    injection H as <-.
    eexists. split; [|exact Hstore]. discriminate.
  - intro budget. unfold Pipeline.run_from_fetch. rewrite H. reflexivity.
  - reflexivity.
Qed.

End StoreFailure.

Lemma only_the_store_raises_before_clustering_witness :
  (exists rows,
      rows <> [] /\ Cases.store_down "job_1"%string rows
                    = Py.Raise "connection refused"%string)
  /\ Pipeline.run_from_fetch Cases.source_two None Cases.no_enrichment
                             Cases.encoder Cases.store_down
                             Cases.fit_one_cluster Scenario.set_iter
                             Scenario.group_name 50 Cases.seeded
     = Py.Raise "connection refused"%string.
Proof.
  destruct (only_the_store_raises_before_clustering
              Cases.source_two None Cases.no_enrichment Cases.encoder
              Cases.store_down Cases.fit_one_cluster Scenario.set_iter
              Scenario.group_name Cases.seeded "connection refused"%string)
    as (Hrows & Hrun & _).
  - vm_compute. reflexivity.
  - split; [exact Hrows|exact (Hrun 50%nat)].
Defined.

(** ** A run that finds keywords *)

Section FullRun.
Local Open Scope string_scope.
Import KeywordProcessor.







Variable fetch_keyword_ideas : list string -> Py.Result (list RawKeyword.t).
Variable enrich_batch : list RawKeyword.t -> list EnrichedKeyword.t.
Variable _generate_vector : string -> list Q.
Variable upsert_keywords : string -> list VectorManager.Row -> Py.Result unit.
Variable fit_predict : list (list Q) -> ClusteringAgent.Fit.
Variable set_iter : list Z -> list Z.
Variable _generate_group_name : list string -> string.


End FullRun.


(** ** One or two keywords *)

Section SmallInput.
Local Open Scope Q_scope.
Local Open Scope string_scope.
Import ClusteringAgent WorkflowBuilder.

Variable fit_predict : list (list Q) -> Fit.
Variable set_iter : list Z -> list Z.
Variable _generate_group_name : list string -> string.

(** X22.  With one or two embeddings and a fresh attempt counter the
    clustering cycle always runs the builder exactly twice, under every step
    budget of at least two: the builder makes one group per keyword, a group
    of one keyword is poor by its size whatever its score, so the gate sends
    the first result back, and the second run returns the same groups.  The
    clusterer is not consulted. *)
Theorem small_input_clusters_twice (budget : nat) (state : GlobalState.t) :
  (2 <= budget)%nat ->
  (1 <= List.length (GlobalState.embeddings state) < 3)%nat ->
  GlobalState.clustering_attempts state = 0%Z ->
  exists state',
    clustering_loop fit_predict set_iter _generate_group_name budget 0 state
    = Py.Ok (Some (state', 2%nat))
    /\ GlobalState.ad_groups state'
       = Some (simple_groups (GlobalState.embeddings state))
    /\ GlobalState.clustering_attempts state' = 2%Z
    /\ Forall (fun g => List.length (AdGroup.keywords g) = 1%nat
                        /\ poor g = true)
              (simple_groups (GlobalState.embeddings state))
    /\ map (fun g => hd "" (AdGroup.keywords g))
           (simple_groups (GlobalState.embeddings state))
       = map fst (GlobalState.embeddings state).
Proof.
  intros Hbudget Hlen Hatt.
  destruct budget as [|[|budget]]; try lia. clear Hbudget.
  destruct state as [req job log att brand comp seeds raw enr emb grp
                         pmax shop cmp srch rep].
  cbn [GlobalState.embeddings GlobalState.clustering_attempts] in *.
  subst att.
  destruct emb as [|[k1 v1] [|[k2 v2] [|e3 emb]]]; cbn [List.length] in Hlen;
    try lia;
    (eexists; split; [reflexivity|]);
    (split; [reflexivity|]); (split; [reflexivity|]);
    split; try reflexivity; repeat constructor.
Qed.

End SmallInput.

Lemma small_input_clusters_twice_witness :
  exists state',
    WorkflowBuilder.clustering_loop
      Scenario.failing_fit Scenario.set_iter Scenario.group_name 50 0
      Cases.one_embedding
    = Py.Ok (Some (state', 2%nat))
    /\ GlobalState.clustering_attempts state' = 2%Z.
Proof.
  destruct (small_input_clusters_twice
              Scenario.failing_fit Scenario.set_iter Scenario.group_name
              50 Cases.one_embedding)
    as (state' & Hrun & _ & Ha & _).
  - lia.
  - simpl. lia.
  - reflexivity.
  - exists state'. split; [exact Hrun|exact Ha].
Defined.

(** ** The batch sent for enrichment *)

Section EnrichmentBatch.
Local Open Scope Q_scope.
Import OpenAIEnrichmentAgent.

Lemma sorted_desc_of_descending {A K : Type} (key key' : A -> K)
      (le : K -> K -> bool) (l : list A) :
  (forall a b, le (key' a) (key' b) = le (key a) (key b)) ->
  Order.descending key le l ->
  Py.sorted_desc key' le l = l.
Proof.
  intros Hkey Hs. unfold Order.descending in Hs.
  induction Hs as [|x l Hl IH Hx]; [reflexivity|].
  cbn [Py.sorted_desc fold_right]. fold (Py.sorted_desc key' le l).
  rewrite IH. destruct l as [|y ys]; [reflexivity|].
  cbn [Py.insert_desc]. rewrite Hkey.
  inversion Hx as [|? ? Hy _]; subst. rewrite Hy. reflexivity.
Qed.

Lemma score_or_zero_order (a b : RawKeyword.t) :
  Py.leb (score_or_zero a) (score_or_zero b)
  = Py.leb (Order.score_of a) (Order.score_of b).
Proof.
  unfold score_or_zero, Order.score_of, Py.leb.
  destruct (RawKeyword.opportunity_score a) as [x|],
           (RawKeyword.opportunity_score b) as [y|]; try reflexivity.
  - unfold Qle_bool. cbn. rewrite !Z.mul_0_r || idtac.
    destruct (Qnum x) as [|p|p]; reflexivity.
  - unfold Qle_bool. cbn. destruct (Qnum y) as [|p|p]; reflexivity.
Qed.

(** X23.  The enrichment node works on at most twenty keywords: its batch
    holds twenty keywords of the raw list (all of them when there are
    fewer), in descending order of opportunity score with a missing score
    counted as zero, and no keyword left out of the batch has a higher score
    than one in it. *)
Theorem enrichment_batch_is_the_best_twenty (raw_keywords : list RawKeyword.t) :
  let batch := top_keywords raw_keywords in
  List.length batch = Nat.min 20 (List.length raw_keywords)
  /\ Order.descending score_or_zero Py.leb batch
  /\ exists cut,
       Permutation (batch ++ cut) raw_keywords
       /\ Order.best_first score_or_zero Py.leb batch cut.
Proof.
  cbv zeta. unfold top_keywords.
  set (sorted := Py.sorted_desc score_or_zero Py.leb raw_keywords).
  assert (Hs : Order.descending score_or_zero Py.leb sorted)
    by (apply sorted_desc_descending;
        [intros; apply qleb_total|intros a b c; apply qleb_trans]).
  split; [|split].
  - rewrite length_firstn. unfold sorted.
    rewrite (Permutation_length
               (sorted_desc_permutation score_or_zero Py.leb raw_keywords)).
    reflexivity.
  - apply descending_firstn. exact Hs.
  - exists (skipn 20 sorted). split.
    + rewrite firstn_skipn. apply sorted_desc_permutation.
    + apply descending_best_first. exact Hs.
Qed.

(** X24.  On the list the keyword stage writes, the enrichment batch is
    simply its first twenty keywords: the list is already in descending
    order of score, and sorting it again changes nothing. *)
Theorem enrichment_batch_after_keyword_stage
        (raised : option string) (state : GlobalState.t)
        (v : list RawKeyword.t) :
  In (Update.raw_keywords v) (KeywordProcessor.__call__ raised state) ->
  top_keywords v = firstn 20 v.
Proof.
  intro H.
  destruct (call_writes raised state v H) as (raw & _ & _ & _ & _ & ->).
  unfold top_keywords. f_equal.
  apply (sorted_desc_of_descending Order.score_of score_or_zero Py.leb).
  - apply score_or_zero_order.
  - apply descending_firstn. apply sorted_desc_descending.
    + intros; apply qleb_total.
    + intros a b c; apply qleb_trans.
Qed.

End EnrichmentBatch.

Lemma enrichment_batch_after_keyword_stage_witness :
  OpenAIEnrichmentAgent.top_keywords Cases.two_scored
  = firstn 20 Cases.two_scored.
Proof.
  apply (enrichment_batch_after_keyword_stage None Cases.two_keywords).
  left. vm_compute. reflexivity.
Defined.
